(** * Chill-requirement models (chill_models.py): a shallow embedding

    The Python module works on pandas objects: a DataFrame with a
    DatetimeIndex and a float column 'temp', and Series derived from it.
    This development embeds

    - the pandas operations the module calls ([pd.infer_freq],
      [Series.resample(..).bfill()], [cumsum], element-wise comparison
      and arithmetic, [groupby(..).apply(..)], [DatetimeIndex.year] and
      [.dayofyear]) with the behaviour of pandas 1.x, the line the module
      was written for (it tests the frequency alias 'H');
    - the functions of chill_models.py on top of them, under their
      source names.

    Timestamps are integers (nanoseconds since 1970-01-01T00:00, as a
    DatetimeIndex stores them, in naive local time), temperatures are
    binary64 floats, counts are int64 with the wrap-around written out,
    and a Python call either returns a value or raises, after printing
    zero or more lines.  The range a DatetimeIndex can hold (1677 to
    2262) is not built into the type of timestamps: a statement that
    needs it takes it as a hypothesis ([in_int64], and
    [resample_in_bounds] where bins are laid out).  In the same way an
    integer anchor of the reset is any integer, and a statement about
    the grouping key takes it where the key stays in int64
    ([anchor_fits]). *)

From Stdlib Require Import ZArith List Lia Bool String Permutation.
From Stdlib Require Import Floats Numbers.Cyclic.Int63.Uint63.
From Stdlib Require Import Sorting.Sorted.
Import ListNotations.

Set Warnings "-inexact-float".
Local Open Scope Z_scope.

(** ** Python calls: printed lines, and a value or an exception *)

Module Py.

Inductive exn : Type :=
| ValueError
| IndexError
| OutOfBoundsDatetime.

Inductive outcome (A : Type) : Type :=
| Returns (a : A)
| Raises (e : exn).
Arguments Returns {A} a.
Arguments Raises {A} e.

(** A call that may also print: the lines written to stdout so far, and
    how the call ended. *)
Definition py (A : Type) : Type := (list string * outcome A)%type.

Definition ret {A} (a : A) : py A := ([], Returns a).
Definition print (line : string) : py unit := ([line], Returns tt).
Definition lift {A} (o : outcome A) : py A := ([], o).

Definition bind {A B} (m : py A) (k : A -> py B) : py B :=
  match m with
  | (out, Returns a) => let (out', r) := k a in ((out ++ out')%list, r)
  | (out, Raises e) => (out, Raises e)
  end.

Definition obind {A B} (m : outcome A) (k : A -> outcome B) : outcome B :=
  match m with
  | Returns a => k a
  | Raises e => Raises e
  end.

(** [traverse f l]: a Python loop calling [f] on every element, stopping
    at the first exception. *)
Fixpoint traverse {A B} (f : A -> outcome B) (l : list A) : outcome (list B) :=
  match l with
  | [] => Returns []
  | a :: l' =>
      obind (f a) (fun b => obind (traverse f l') (fun bs => Returns (b :: bs)))
  end.

Definition stdout {A} (m : py A) : list string := fst m.

End Py.
Import Py.

Declare Scope py_scope.
Delimit Scope py_scope with py.
Notation "x <- m ;; k" := (bind m (fun x => k))
  (at level 61, m at next level, right associativity) : py_scope.
Notation "m ;;; k" := (bind m (fun _ => k))
  (at level 61, right associativity) : py_scope.

(** ** Fixed-width integers *)

Definition wrap64 (z : Z) : Z := (z + 2 ^ 63) mod 2 ^ 64 - 2 ^ 63.

Definition in_int64 (z : Z) : Prop := - 2 ^ 63 <= z < 2 ^ 63.

(** ** Timestamps and the proleptic Gregorian calendar *)

Definition Timestamp : Type := Z.

Definition ns_per_hour : Z := 3600000000000.
Definition ns_per_day : Z := 86400000000000.

(** The int64 nanoseconds a pandas Timestamp can carry: every int64 but
    the lowest, which is NaT.  The upper end is [Timestamp.max],
    2262-04-11 23:47:16.854775807; the lower end falls in the first
    quarter of an hour of 1677-09-21. *)
Definition Timestamp_min : Z := - 2 ^ 63 + 1.
Definition Timestamp_max : Z := 2 ^ 63 - 1.

Definition is_leap (y : Z) : bool :=
  ((y mod 4 =? 0) && negb (y mod 100 =? 0)) || (y mod 400 =? 0).

(** Days since 1970-01-01 to (year, day of the year), through the
    400-year cycle counted from 1 March of year 0. *)
Definition year_and_doy (days : Z) : Z * Z :=
  let z := days + 719468 in
  let era := z / 146097 in
  let doe := z mod 146097 in
  let yoe := (doe - doe / 1460 + doe / 36524 - doe / 146096) / 365 in
  let doy := doe - (365 * yoe + yoe / 4 - yoe / 100) in
  let y := yoe + era * 400 in
  if doy <? 306
  then (y, doy + 60 + (if is_leap y then 1 else 0))
  else (y + 1, doy - 305).

(** [DatetimeIndex.year] and [DatetimeIndex.dayofyear], per entry. *)
Definition year (t : Timestamp) : Z := fst (year_and_doy (t / ns_per_day)).
Definition dayofyear (t : Timestamp) : Z := snd (year_and_doy (t / ns_per_day)).

(** Python's [datetime]: the constructor accepts only real calendar
    dates ([valid_datetime]). *)
Record datetime : Type := mk_datetime {
  dt_year : Z; dt_month : Z; dt_day : Z;
  dt_hour : Z; dt_minute : Z; dt_second : Z; dt_microsecond : Z
}.

Definition days_before_month (y m : Z) : Z :=
  nth (Z.to_nat (m - 1)) [0; 31; 59; 90; 120; 151; 181; 212; 243; 273; 304; 334] 0
  + (if (2 <? m) && is_leap y then 1 else 0).

Definition days_in_month (y m : Z) : Z :=
  if (m =? 2) && is_leap y then 29
  else nth (Z.to_nat (m - 1)) [31; 28; 31; 30; 31; 30; 31; 31; 30; 31; 30; 31] 0.

Definition valid_datetime (d : datetime) : Prop :=
  1 <= dt_year d <= 9999 /\ 1 <= dt_month d <= 12 /\
  1 <= dt_day d <= days_in_month (dt_year d) (dt_month d).

(** [d.timetuple().tm_yday] *)
Definition tm_yday (d : datetime) : Z :=
  days_before_month (dt_year d) (dt_month d) + dt_day d.

(** The timestamp of a calendar date at a time of day, for writing
    inputs down: days from the epoch by the inverse of [year_and_doy]. *)
Definition days_before_year (y : Z) : Z :=
  let p := y - 1 in 365 * (y - 1970) + (p / 4 - p / 100 + p / 400) - 477.

Definition at_date (y m d hour : Z) : Timestamp :=
  (days_before_year y + days_before_month y m + d - 1) * ns_per_day
  + hour * ns_per_hour.

(** ** Series *)

(** A Series: its index labels paired with its values, in order. *)
Definition Series (V : Type) : Type := list (Timestamp * V).

(** The DataFrame the models take: a DatetimeIndex and the column
    'temp'; [temp df] is [df['temp']]. *)
Definition DataFrame : Type := Series float.
Definition temp (df : DataFrame) : Series float := df.

Definition index {V} (s : Series V) : list Timestamp := map fst s.
Definition values {V} (s : Series V) : list V := map snd s.

(** An element-wise operation with a scalar ([temps < 7.2], [0.5 * s],
    [s / base_temp]). *)
Definition smap {V W} (f : V -> W) (s : Series V) : Series W :=
  map (fun e => (fst e, f (snd e))) s.

(** An element-wise operation of two Series carrying the same index
    ([a & b], [a + b], [a - b]): positions are paired. *)
Definition szip {U V W} (f : U -> V -> W) (a : Series U) (b : Series V) : Series W :=
  map (fun p => (fst (fst p), f (snd (fst p)) (snd (snd p)))) (combine a b).

(** [cumsum] of a boolean Series: an int64 running count. *)
Fixpoint cumsum_bool_from (acc : Z) (s : Series bool) : Series Z :=
  match s with
  | [] => []
  | (t, b) :: r =>
      let a := wrap64 (acc + Z.b2z b) in (t, a) :: cumsum_bool_from a r
  end.
Definition cumsum_bool (s : Series bool) : Series Z := cumsum_bool_from 0 s.

(** [cumsum] of a float Series: NaN entries count as 0.0 in the running
    sum and stay NaN in the result (skipna). *)
Fixpoint np_cumsum_from (acc : float) (l : list float) : list float :=
  match l with
  | [] => []
  | x :: r => let a := PrimFloat.add acc x in a :: np_cumsum_from a r
  end.
Definition np_cumsum (l : list float) : list float :=
  match l with
  | [] => []
  | x :: r => x :: np_cumsum_from x r
  end.
Definition cumsum_float (s : Series float) : Series float :=
  let filled := map (fun x => if PrimFloat.is_nan x then 0%float else x) (values s) in
  map (fun p => (fst (fst p), if PrimFloat.is_nan (snd (fst p)) then nan else snd p))
      (combine s (np_cumsum filled)).

(** int64 to float64, as a float scalar times an integer Series needs. *)
Definition float_of_int64 (z : Z) : float :=
  if z <? 0 then PrimFloat.opp (PrimFloat.of_uint63 (Uint63.of_Z (- z)))
  else PrimFloat.of_uint63 (Uint63.of_Z z).

(** ** Frequency inference and resampling *)

Fixpoint deltas (idx : list Timestamp) : list Z :=
  match idx with
  | a :: ((b :: _) as tl) => (b - a) :: deltas tl
  | _ => []
  end.

(** [pd.infer_freq(idx) == 'H'].  [infer_freq] raises ValueError under
    three entries; otherwise it answers 'H' exactly when every step of
    the index is one hour (any other index gives another alias or None). *)
Definition infer_freq_is_H (idx : list Timestamp) : outcome bool :=
  if (List.length idx <? 3)%nat then Raises ValueError
  else Returns (forallb (Z.eqb ns_per_hour) (deltas idx)).

(** Resampling first sorts by the index (a stable sort). *)
Fixpoint insert_by_time {V} (e : Timestamp * V) (l : Series V) : Series V :=
  match l with
  | [] => [e]
  | x :: r => if fst e <=? fst x then e :: l else x :: insert_by_time e r
  end.
Definition sort_index {V} (s : Series V) : Series V :=
  fold_right insert_by_time [] s.

Fixpoint is_unique (idx : list Timestamp) : bool :=
  match idx with
  | [] => true
  | t :: r => negb (existsb (Z.eqb t) r) && is_unique r
  end.

(** The bin labels of [resample(freq)]: from the first timestamp rounded
    down to a multiple of [freq] to the last one rounded down, every
    [freq]. *)
Definition floor_to (freq : Z) (t : Timestamp) : Timestamp := t - t mod freq.

Definition date_range (first last freq : Z) : list Timestamp :=
  map (fun k => first + Z.of_nat k * freq)
      (seq 0 (S (Z.to_nat ((last - first) / freq)))).

(** Backward fill: at a label, the value of the first observation at or
    after it; NaN when there is none. *)
Definition bfill_at (sorted : Series float) (label : Timestamp) : float :=
  match find (fun e => label <=? fst e) sorted with
  | Some e => snd e
  | None => nan
  end.

(** [s.resample(freq).bfill()]: an empty Series stays empty.  On any
    other the bins are laid out first, counted from the midnight of the
    first day ([first.normalize()], the origin) up to the end of the
    bin of the last timestamp, that is the last label plus one period;
    the edges are built as Timestamps, and pandas raises
    OutOfBoundsDatetime when the end passes [Timestamp.max].  (At the
    other end, where the midnight of the first day lies below the
    range, the origin is no Timestamp and what pandas does varies with
    the release; the model raises there too, and every statement that
    a resampling returns, or that it raises, keeps to inputs whose
    origin is a Timestamp.)  Then the values are put on the labels by
    reindexing, which raises ValueError on a repeated timestamp. *)
Definition resample_bfill (freq : Z) (s : Series float) : outcome (Series float) :=
  match sort_index s with
  | [] => Returns []
  | ((t0, _) :: _) as sorted =>
      let origin := floor_to ns_per_day t0 in
      let first := floor_to freq t0 in
      let last := floor_to freq (last (index sorted) t0) in
      if (origin <? Timestamp_min) || (Timestamp_max <? last + freq)
      then Raises OutOfBoundsDatetime
      else if is_unique (index sorted)
      then Returns (map (fun l => (l, bfill_at sorted l)) (date_range first last freq))
      else Raises ValueError
  end.

(** ** The models of chill_models.py *)

Local Open Scope py_scope.
Local Open Scope string_scope.

Definition reindex_warning : string :=
  "Warning: reindexing was required. This series index would not match the original DataFrame one".

(** The block every hourly model opens with (chilling_hours lines 28-32,
    and the same lines in utah, positive_chill_units, low_chill,
    north_carolina and dynamic): keep 'temp' when the index is inferred
    hourly, else warn and resample to hours by backward fill. *)
Definition hourly_temps (df : DataFrame) : py (Series float) :=
  hourly <- lift (infer_freq_is_H (index df)) ;;
  if hourly then ret (temp df)
  else print reindex_warning ;;; lift (resample_bfill ns_per_hour (temp df)).

Definition gt (c : float) (s : Series float) : Series bool := smap (fun x => PrimFloat.ltb c x) s.
Definition ge (c : float) (s : Series float) : Series bool := smap (fun x => PrimFloat.leb c x) s.
Definition lt (c : float) (s : Series float) : Series bool := smap (fun x => PrimFloat.ltb x c) s.
Definition le (c : float) (s : Series float) : Series bool := smap (fun x => PrimFloat.leb x c) s.
Definition sand : Series bool -> Series bool -> Series bool := szip andb.
Definition fscale (c : float) (s : Series Z) : Series float :=
  smap (fun n => PrimFloat.mul c (float_of_int64 n)) s.
Definition fadd : Series float -> Series float -> Series float := szip PrimFloat.add.
Definition fsub : Series float -> Series float -> Series float := szip PrimFloat.sub.
Definition isub : Series Z -> Series Z -> Series Z := szip (fun a b => wrap64 (a - b)).
Definition iscale (c : Z) (s : Series Z) : Series Z := smap (fun n => wrap64 (c * n)) s.

Definition chilling_hours (df : DataFrame) : py (Series Z) :=
  temps <- hourly_temps df ;;
  ret (cumsum_bool (lt 7.2 temps)).

Definition utah (df : DataFrame) (fahrenheit_model : bool) : py (Series float) :=
  temps <- hourly_temps df ;;
  if fahrenheit_model then
    ret (fsub (fsub (fadd (fadd
      (fscale 0.5 (cumsum_bool (sand (gt 1.1 temps) (le 2.2 temps))))
      (fscale 1.0 (cumsum_bool (sand (gt 2.2 temps) (le 8.9 temps)))))
      (fscale 0.5 (cumsum_bool (sand (gt 8.9 temps) (le 12.2 temps)))))
      (fscale 0.5 (cumsum_bool (sand (gt 15.6 temps) (le 18.3 temps)))))
      (fscale 1.0 (cumsum_bool (gt 18.3 temps))))
  else
    ret (fsub (fsub (fadd (fadd
      (fscale 0.5 (cumsum_bool (sand (gt 1.4 temps) (le 2.4 temps))))
      (fscale 1.0 (cumsum_bool (sand (gt 2.4 temps) (le 9.1 temps)))))
      (fscale 0.5 (cumsum_bool (sand (gt 9.1 temps) (le 12.4 temps)))))
      (fscale 0.5 (cumsum_bool (sand (gt 15.9 temps) (le 18 temps)))))
      (fscale 1.0 (cumsum_bool (gt 18 temps)))).

Definition positive_chill_units (df : DataFrame) : py (Series float) :=
  temps <- hourly_temps df ;;
  ret (fadd (fadd
    (fscale 0.5 (cumsum_bool (sand (gt 1.4 temps) (le 2.4 temps))))
    (fscale 1.0 (cumsum_bool (sand (gt 2.4 temps) (le 9.1 temps)))))
    (fscale 0.5 (cumsum_bool (sand (gt 9.1 temps) (le 12.4 temps))))).

Definition landsberg (df : DataFrame) (base_temp : float) : py (Series float) :=
  temps <- lift (resample_bfill ns_per_day (temp df)) ;;
  ret (smap (fun x => PrimFloat.div x base_temp) (cumsum_float temps)).

Definition low_chill (df : DataFrame) : py (Series Z) :=
  temps <- hourly_temps df ;;
  ret (isub (cumsum_bool (sand (ge 1.8 temps) (le 8 temps)))
            (cumsum_bool (gt 19.5 temps))).

Definition north_carolina (df : DataFrame) : py (Series Z) :=
  temps <- hourly_temps df ;;
  ret (isub (cumsum_bool (sand (ge 1.6 temps) (le 7.2 temps)))
            (iscale 2 (cumsum_bool (gt 23.3 temps)))).

(** [dynamic] stops after the opening block and returns None. *)
Definition dynamic (df : DataFrame) : py unit :=
  temps <- hourly_temps df ;;
  ret tt.

(** ** Dormancy-year reset *)

Local Close Scope string_scope.

(** The value type of a chill-unit Series: int64 for the counting models
    (chilling_hours, low_chill, north_carolina), float64 for the others. *)
Class Dtype (V : Type) : Type := {
  dsub : V -> V -> V;
  dzero : V
}.

(** A dtype whose subtraction is exact arithmetic: integers modulo 2^64
    are, binary64 with its rounding, infinities and NaN is not. *)
Class ExactDtype (V : Type) `{Dtype V} : Prop := {
  dsub_diag : forall x : V, dsub x x = dzero;
  dsub_cancel : forall a b c : V, dsub (dsub a c) (dsub b c) = dsub a b
}.

#[export] Instance int64_dtype : Dtype Z :=
  {| dsub := fun a b => wrap64 (a - b); dzero := 0 |}.

#[export] Instance float64_dtype : Dtype float :=
  {| dsub := PrimFloat.sub; dzero := 0%float |}.

(** The second argument of [reset_chill_hours]: [Union[datetime, int]]. *)
Inductive reset_date_t : Type :=
| ResetInt (doy : Z)
| ResetDatetime (d : datetime).

(** Lines 150-153: the anchor's day of the year. *)
Definition start_doy (reset_date : reset_date_t) : Z :=
  match reset_date with
  | ResetInt n => n
  | ResetDatetime d => tm_yday d
  end.

(** Line 155, the grouping key of one entry:
    [s.index.year + (s.index.dayofyear - start_doy) // 366].  The two
    index attributes are int64.  With an anchor that fits int64 the
    arithmetic is NumPy's on int64, wrap-around included.  A Python int
    of 2^64 or more fits no NumPy integer: the subtraction is then done
    on Python integers, which are exact, and the key is the exact one.
    (For the other anchors outside int64, from 2^63 to 2^64 and below
    -2^63, NumPy's promotion goes through uint64 and float64; the model
    does not follow it and computes exactly there as well.  No
    statement about the key is made for an anchor outside int64: they
    take it where the int64 key has room, see [anchor_fits].) *)
Definition dormancy_year (start : Z) (t : Timestamp) : Z :=
  if (- 2 ^ 63 <=? start) && (start <? 2 ^ 63)
  then wrap64 (year t + wrap64 (dayofyear t - start) / 366)
  else year t + (dayofyear t - start) / 366.

(** [groupby([by])]: the distinct keys in increasing order, and for each
    one the entries carrying it, in their order in the Series. *)
Fixpoint insert_key (k : Z) (ks : list Z) : list Z :=
  match ks with
  | [] => [k]
  | x :: r =>
      if k <? x then k :: ks
      else if k =? x then ks
      else x :: insert_key k r
  end.
Definition group_keys (by_ : list Z) : list Z := fold_right insert_key [] by_.

Definition group {V} (by_ : list Z) (s : Series V) (k : Z) : Series V :=
  map snd (filter (fun p => fst p =? k) (combine by_ s)).

Definition groupby {V} (by_ : list Z) (s : Series V) : list (Series V) :=
  map (group by_ s) (group_keys by_).

(** [x.iloc[0]] *)
Definition iloc0 {V} (x : Series V) : outcome V :=
  match x with
  | [] => Raises IndexError
  | e :: _ => Returns (snd e)
  end.

(** [result.reindex(ax)]: the value found at each label of [ax], [None]
    standing for the NaN put at a label that is not found.  A Series
    whose index already is [ax] is returned as it is; any other Series
    with a repeated label cannot be reindexed (ValueError). *)
Definition lookup {V} (t : Timestamp) (s : Series V) : option V :=
  option_map snd (find (fun e => fst e =? t) s).

Definition reindex {V} (s : Series V) (ax : list Timestamp)
  : outcome (Series (option V)) :=
  if list_eq_dec Z.eq_dec (index s) ax then Returns (smap Some s)
  else if is_unique (index s) then Returns (map (fun t => (t, lookup t s)) ax)
  else Raises ValueError.

(** [s.groupby([by]).apply(f)] for an [f] that returns its group
    re-valued under the same labels: the pieces are concatenated in key
    order and put back on the index of [s] by [reindex].  (How a Series
    with repeated timestamps is put back differs between pandas
    releases; the data model has none, and no statement below is about
    one.) *)
Definition groupby_apply {V} (by_ : list Z) (s : Series V)
    (f : Series V -> outcome (Series V)) : outcome (Series (option V)) :=
  obind (traverse f (groupby by_ s))
        (fun pieces => reindex (List.concat pieces) (index s)).

(** Line 155, the function applied to each group:
    [lambda x: x - x.iloc[0]]. *)
Definition subtract_first {V} `{Dtype V} (x : Series V) : outcome (Series V) :=
  obind (iloc0 x) (fun x0 => Returns (smap (fun v => dsub v x0) x)).

Definition reset_chill_hours {V} `{Dtype V} (s : Series V)
    (reset_date : reset_date_t) : outcome (Series (option V)) :=
  let start := start_doy reset_date in
  groupby_apply (map (dormancy_year start) (index s)) s subtract_first.

(** * Vocabulary of the statements and proofs *)

(** Strictly increasing lists of keys. *)
Definition increasing (ks : list Z) : Prop :=
  forall i j a b, (i < j)%nat -> nth_error ks i = Some a -> nth_error ks j = Some b -> a < b.

(** The first value of the bucket of [t]: the value of the first entry
    of [s] whose key is the key of [t]. *)
Definition bucket_first {V} (key : Timestamp -> Z) (s : Series V) (t : Timestamp)
  : option V :=
  option_map snd (find (fun e => key (fst e) =? key t) s).

(** The entries of [s] whose key is [k], in order, and what
    [subtract_first] returns on a group that is not empty. *)
Definition bucket {V} (key : Timestamp -> Z) (s : Series V) (k : Z) : Series V :=
  filter (fun e => key (fst e) =? k) s.

Definition rebase {V} `{Dtype V} (x : Series V) : Series V :=
  match x with
  | [] => []
  | e :: _ => smap (fun v => dsub v (snd e)) x
  end.

(** [year_and_doy] against the closed-form count of days before a
    year: the day is the [n]-th of its year [y]. *)
Definition calendar_agrees (days : Z) : bool :=
  let (y, n) := year_and_doy days in
  (days_before_year y + n - 1 =? days) && (1 <=? n)
  && (n <=? (if is_leap y then 366 else 365)).

(** [calendar_agrees] on [count] consecutive days from [first]. *)
Definition calendar_agrees_from (first : Z) (count : positive) : bool :=
  snd (Pos.iter (fun st => (fst st + 1, snd st && calendar_agrees (fst st)))
                (first, true) count).

(** The bucket key as the specification writes it, on unbounded integers
    with floor division. *)
Definition bucket_key (anchor_doy : Z) (t : Timestamp) : Z :=
  year t + (dayofyear t - anchor_doy) / 366.

(** An anchor the int64 subtraction [dayofyear - start_doy] has room
    for: a calendar date, or any int64 integer but the 367 lowest. *)
Definition anchor_fits (a : reset_date_t) : Prop :=
  match a with
  | ResetInt n => - 2 ^ 63 + 366 < n < 2 ^ 63
  | ResetDatetime d => valid_datetime d
  end.

(** The day of the year an anchor names, counted on the calendar: an
    integer anchor is the day itself; for a date, the days of the
    months before its month, and its day of the month. *)
Definition anchor_day (a : reset_date_t) : Z :=
  match a with
  | ResetInt n => n
  | ResetDatetime d =>
      fold_right Z.add (dt_day d)
        (map (fun m => days_in_month (dt_year d) (Z.of_nat m))
             (seq 1 (Z.to_nat (dt_month d) - 1)))
  end.

(** The values a dtype's subtraction takes to zero when subtracted from
    themselves: every int64 and every finite float64; [x - x] is NaN
    for an infinite [x] and for NaN. *)
Class CancelDtype (V : Type) `{Dtype V} : Type := {
  cancels : V -> bool;
  dsub_self : forall x : V, dsub x x = dzero <-> cancels x = true
}.

(** Timestamps whose resampling at [freq] lays out its bins inside the
    range of a Timestamp: the midnight the day of each begins with is
    one, and so is the end of its bin. *)
Definition resample_in_bounds (freq : Z) (idx : list Timestamp) : Prop :=
  forall t, In t idx ->
    Timestamp_min <= floor_to ns_per_day t /\ floor_to freq t + freq <= Timestamp_max.

(** A strictly regular hourly cadence: every entry is one hour after the
    one before it. *)
Definition hourly_cadence (idx : list Timestamp) : Prop :=
  forall i a b,
    nth_error idx i = Some a -> nth_error idx (S i) = Some b -> b = a + ns_per_hour.

(** A Series on the hourly index that starts at [t0]. *)
Definition hourly_from {V} (t0 : Timestamp) (vals : list V) : Series V :=
  combine (map (fun k => t0 + Z.of_nat k * ns_per_hour) (seq 0 (List.length vals))) vals.

(** The weight tables of the specification. *)
Definition chilling_hours_weight (x : float) : Z :=
  if PrimFloat.ltb x 7.2 then 1 else 0.

Definition utah_weight (x : float) : float :=
  if PrimFloat.ltb 1.4 x && PrimFloat.leb x 2.4 then 0.5%float
  else if PrimFloat.ltb 2.4 x && PrimFloat.leb x 9.1 then 1.0%float
  else if PrimFloat.ltb 9.1 x && PrimFloat.leb x 12.4 then 0.5%float
  else if PrimFloat.ltb 15.9 x && PrimFloat.leb x 18.0 then (-0.5)%float
  else if PrimFloat.ltb 18.0 x then (-1.0)%float
  else 0%float.

(** Running sums of a list of integers. *)
Fixpoint prefix_sums_from (acc : Z) (l : list Z) : list Z :=
  match l with
  | [] => []
  | x :: r => (acc + x) :: prefix_sums_from (acc + x) r
  end.

(** Resampling to daily means, as the specification and the docstring
    of [landsberg] word it: one entry per calendar day from the first
    to the last timestamp, carrying the mean of that day's readings
    (NaN for a day without readings). *)
Definition daily_mean_spec (s : Series float) : Series float :=
  match sort_index s with
  | [] => []
  | ((t0, _) :: _) as sorted =>
      map (fun day =>
             let readings :=
               filter (fun e => (day <=? fst e) && (fst e <? day + ns_per_day)) sorted in
             (day,
              match readings with
              | [] => nan
              | _ =>
                  PrimFloat.div
                    (fold_left PrimFloat.add (values readings) 0%float)
                    (float_of_int64 (Z.of_nat (List.length readings)))
              end))
          (date_range (floor_to ns_per_day t0)
             (floor_to ns_per_day (last (index sorted) t0)) ns_per_day)
  end.

Definition landsberg_spec (df : DataFrame) (base_temp : float) : Series float :=
  smap (fun x => PrimFloat.div x base_temp) (cumsum_float (daily_mean_spec (temp df))).

(** A day with two readings, 0 degrees at midnight and 24 at noon. *)
Definition midnight_and_noon : DataFrame :=
  [ (at_date 2020 1 1 0, 0%float); (at_date 2020 1 1 12, 24%float) ].

(** Three daily readings at midnight. *)
Definition three_days : DataFrame :=
  [ (at_date 2020 1 1 0, 4%float); (at_date 2020 1 2 0, (-6)%float);
    (at_date 2020 1 3 0, 2%float) ].

(** ** Concrete inputs *)

(** Three daily readings of 1, 1 and 3 degrees, and what [landsberg]
    returns on them with base temperature 3: float64 chill units. *)
Definition three_mild_days : DataFrame :=
  [ (at_date 2020 1 1 0, 1%float); (at_date 2020 1 2 0, 1%float);
    (at_date 2020 1 3 0, 3%float) ].

Definition thirds : Series float :=
  [ (at_date 2020 1 1 0, 0.3333333333333333%float);
    (at_date 2020 1 2 0, 0.6666666666666666%float);
    (at_date 2020 1 3 0, 1.6666666666666667%float) ].

(** What [landsberg] returns on [three_days] with base temperature 0. *)
Definition zero_base_units : Series float :=
  [ (at_date 2020 1 1 0, infinity); (at_date 2020 1 2 0, neg_infinity);
    (at_date 2020 1 3 0, nan) ].

(** Three uneven readings on 11 April 2262, the last of them in the last
    hour a Timestamp reaches. *)
Definition last_hour : DataFrame :=
  [ (at_date 2262 4 11 21 + 7, 3%float); (at_date 2262 4 11 22, 4%float);
    (at_date 2262 4 11 23 + 5, 5%float) ].

(** An int64 chill-unit Series over two year ends: 30 and 31 December
    2020, 1 and 2 January 2021, 31 December 2021, 1 January 2022. *)
Definition two_year_series : Series Z :=
  [ (at_date 2020 12 30 0, 10); (at_date 2020 12 31 0, 11);
    (at_date 2021 1 1 0, 13); (at_date 2021 1 2 0, 14);
    (at_date 2021 12 31 0, 20); (at_date 2022 1 1 0, 21) ].

(** An irregular input: three readings at uneven times of one morning. *)
Definition uneven_morning : DataFrame :=
  [ (at_date 2020 1 1 0 + 1000, 8%float); (at_date 2020 1 1 2, 6%float);
    (at_date 2020 1 1 3 + 5, 7.2%float) ].

(** Five hourly readings from midnight. *)
Definition five_hours : DataFrame :=
  hourly_from (at_date 2020 1 1 0) [8; 6; 7.2; 5; 9]%float.

(** ** Vocabulary of the further properties *)

(** The order of the binary64 specification, on which [ltb] and [leb]
    are specified. *)
Definition sf_lt (a b : spec_float) : Prop := SFcompare a b = Some Lt.
Definition sf_le (a b : spec_float) : Prop :=
  SFcompare a b = Some Lt \/ SFcompare a b = Some Eq.

(** How many of the first [i + 1] readings lie in a band. *)
Definition readings_in (band : float -> bool) (temps : Series float) (i : nat) : Z :=
  Z.of_nat (List.length (filter band (firstn (S i) (values temps)))).

(** The hourly weights of low_chill and north_carolina, as tables. *)
Definition low_chill_weight (x : float) : Z :=
  if PrimFloat.leb 1.8 x && PrimFloat.leb x 8 then 1
  else if PrimFloat.ltb 19.5 x then -1
  else 0.

Definition north_carolina_weight (x : float) : Z :=
  if PrimFloat.leb 1.6 x && PrimFloat.leb x 7.2 then 1
  else if PrimFloat.ltb 23.3 x then -2
  else 0.

(** The sum of the weights of the first [i + 1] readings. *)
Definition running_sum (weight : float -> Z) (temps : Series float) (i : nat) : Z :=
  fold_right Z.add 0 (map weight (firstn (S i) (values temps))).

(** The band tests of the source on one reading: utah lines 63-67 and
    69-73, low_chill line 117, north_carolina line 132. *)
Definition utah_bands (fahrenheit_model : bool) (x : float) : list bool :=
  if fahrenheit_model then
    [ PrimFloat.ltb 1.1 x && PrimFloat.leb x 2.2;
      PrimFloat.ltb 2.2 x && PrimFloat.leb x 8.9;
      PrimFloat.ltb 8.9 x && PrimFloat.leb x 12.2;
      PrimFloat.ltb 15.6 x && PrimFloat.leb x 18.3;
      PrimFloat.ltb 18.3 x ]
  else
    [ PrimFloat.ltb 1.4 x && PrimFloat.leb x 2.4;
      PrimFloat.ltb 2.4 x && PrimFloat.leb x 9.1;
      PrimFloat.ltb 9.1 x && PrimFloat.leb x 12.4;
      PrimFloat.ltb 15.9 x && PrimFloat.leb x 18;
      PrimFloat.ltb 18 x ].

Definition low_chill_bands (x : float) : list bool :=
  [ PrimFloat.leb 1.8 x && PrimFloat.leb x 8; PrimFloat.ltb 19.5 x ].

Definition north_carolina_bands (x : float) : list bool :=
  [ PrimFloat.leb 1.6 x && PrimFloat.leb x 7.2; PrimFloat.ltb 23.3 x ].

(** How many bands a reading falls in. *)
Definition bands_hit (bands : list bool) : nat := List.length (filter (fun b => b) bands).

(** The boolean Series the models build from these tests, before
    [cumsum] (same lines). *)
Definition utah_masks (fahrenheit_model : bool) (temps : Series float) : list (Series bool) :=
  if fahrenheit_model then
    [ sand (gt 1.1 temps) (le 2.2 temps); sand (gt 2.2 temps) (le 8.9 temps);
      sand (gt 8.9 temps) (le 12.2 temps); sand (gt 15.6 temps) (le 18.3 temps);
      gt 18.3 temps ]
  else
    [ sand (gt 1.4 temps) (le 2.4 temps); sand (gt 2.4 temps) (le 9.1 temps);
      sand (gt 9.1 temps) (le 12.4 temps); sand (gt 15.9 temps) (le 18 temps);
      gt 18 temps ].

Definition low_chill_masks (temps : Series float) : list (Series bool) :=
  [ sand (ge 1.8 temps) (le 8 temps); gt 19.5 temps ].

Definition north_carolina_masks (temps : Series float) : list (Series bool) :=
  [ sand (ge 1.6 temps) (le 7.2 temps); gt 23.3 temps ].

(** How many of the masks are true at position [i]. *)
Definition masks_set_at (masks : list (Series bool)) (i : nat) : nat :=
  List.length
    (filter (fun m => match nth_error m i with Some (_, true) => true | _ => false end)
            masks).

(** Two entries in the order of their timestamps. *)
Definition by_time {V} (a b : Timestamp * V) : Prop := fst a <= fst b.

(** One reading per calendar day, taken at midnight, on consecutive days. *)
Definition daily_midnight (idx : list Timestamp) : Prop :=
  (forall t, In t idx -> t mod ns_per_day = 0) /\
  forall i a b,
    nth_error idx i = Some a -> nth_error idx (S i) = Some b -> b = a + ns_per_day.

(** An anchor that names a day of the year. *)
Definition anchor_in_year (a : reset_date_t) : Prop :=
  match a with
  | ResetInt n => 1 <= n <= 366
  | ResetDatetime d => valid_datetime d
  end.

(** Every entry less the first value of its bucket: what a reset
    returns, without the [Some]. *)
Definition rebased {V} `{Dtype V} (key : Timestamp -> Z) (s : Series V) : Series V :=
  map (fun e => (fst e,
                 match bucket_first key s (fst e) with
                 | Some v0 => dsub (snd e) v0
                 | None => snd e
                 end)) s.

(** * Properties *)

(** ** Lists, keys and lookups *)

Lemma wrap64_small (z : Z) : in_int64 z -> wrap64 z = z.
Proof.
  unfold in_int64, wrap64. intros Hz.
  rewrite Z.mod_small by lia. lia.
Qed.

Lemma wrap64_mod (z : Z) : wrap64 z mod 2 ^ 64 = z mod 2 ^ 64.
Proof.
  unfold wrap64.
  rewrite Zminus_mod, Z.mod_mod, <- Zminus_mod by lia.
  f_equal. lia.
Qed.

Lemma wrap64_congr (a b : Z) : a mod 2 ^ 64 = b mod 2 ^ 64 -> wrap64 a = wrap64 b.
Proof.
  intros E. unfold wrap64.
  rewrite (Zplus_mod a), (Zplus_mod b), E. reflexivity.
Qed.

Lemma is_unique_NoDup (idx : list Timestamp) : is_unique idx = true <-> NoDup idx.
Proof.
  induction idx as [|t r IH]; simpl.
  - split; [constructor | reflexivity].
  - rewrite andb_true_iff, negb_true_iff, IH. split.
    + intros [Hn Hr]. constructor; [|exact Hr].
      intros Hin. assert (existsb (Z.eqb t) r = true) as E.
      { apply existsb_exists. exists t. split; [exact Hin | apply Z.eqb_refl]. }
      congruence.
    + intros Hnd. inversion Hnd as [|? ? Hn Hr]; subst. split; [|exact Hr].
      destruct (existsb (Z.eqb t) r) eqn:E; [|reflexivity].
      apply existsb_exists in E. destruct E as [x [Hin Hx]].
      apply Z.eqb_eq in Hx. subst x. contradiction.
Qed.

Section Lookup.
Context {V : Type}.
Implicit Types (s : Series V) (t : Timestamp).

Lemma lookup_In s t v :
  NoDup (index s) -> In (t, v) s -> lookup t s = Some v.
Proof.
  unfold lookup. induction s as [|[t' v'] r IH]; simpl; intros Hnd Hin.
  - contradiction.
  - inversion Hnd as [|? ? Hn Hr]; subst.
    destruct Hin as [E | Hin].
    + inversion E; subst. rewrite Z.eqb_refl. reflexivity.
    + destruct (t' =? t) eqn:Et.
      * apply Z.eqb_eq in Et. subst t'. exfalso. apply Hn.
        change t with (fst (t, v)). apply in_map. exact Hin.
      * apply IH; assumption.
Qed.

Lemma reindex_NoDup s ax :
  NoDup (index s) ->
  reindex s ax = Returns (map (fun t => (t, lookup t s)) ax).
Proof.
  intros Hnd. unfold reindex.
  destruct (list_eq_dec Z.eq_dec (index s) ax) as [E | _].
  - subst ax. f_equal. unfold smap, index. rewrite map_map.
    apply map_ext_in. intros [t v] Hin. simpl.
    rewrite (lookup_In s t v Hnd Hin). reflexivity.
  - apply is_unique_NoDup in Hnd. rewrite Hnd. reflexivity.
Qed.
End Lookup.

(** The keys of [groupby]: strictly increasing, and exactly the keys
    that occur. *)
Lemma insert_key_In (k x : Z) (ks : list Z) :
  In x (insert_key k ks) <-> x = k \/ In x ks.
Proof.
  induction ks as [|y r IH]; simpl.
  - intuition.
  - destruct (k <? y) eqn:E1; [simpl; intuition|].
    destruct (k =? y) eqn:E2.
    + apply Z.eqb_eq in E2. subst y. simpl. intuition.
    + simpl. rewrite IH. intuition.
Qed.

Lemma group_keys_In (by_ : list Z) (k : Z) : In k (group_keys by_) <-> In k by_.
Proof.
  induction by_ as [|x r IH]; simpl; [reflexivity|].
  rewrite insert_key_In, IH. intuition.
Qed.

Lemma increasing_cons (k : Z) (ks : list Z) :
  increasing (k :: ks) <-> (forall x, In x ks -> k < x) /\ increasing ks.
Proof.
  unfold increasing. split.
  - intros Hs. split.
    + intros x Hin. apply In_nth_error in Hin. destruct Hin as [n Hn].
      apply (Hs 0%nat (S n)); [lia | reflexivity | exact Hn].
    + intros i j a b Hij Ha Hb. apply (Hs (S i) (S j)); [lia | exact Ha | exact Hb].
  - intros [Hk Hs] i j a b Hij Ha Hb.
    destruct j as [|j]; [lia|]. simpl in Hb.
    destruct i as [|i]; simpl in Ha.
    + inversion Ha; subst. apply Hk. eapply nth_error_In; eassumption.
    + apply (Hs i j); [lia | assumption | assumption].
Qed.

Lemma insert_key_increasing (k : Z) (ks : list Z) :
  increasing ks -> increasing (insert_key k ks).
Proof.
  induction ks as [|y r IH]; simpl; intros Hs.
  - apply increasing_cons. split; [intros ? []|exact Hs].
  - apply increasing_cons in Hs. destruct Hs as [Hy Hr].
    destruct (k <? y) eqn:E1.
    + apply Z.ltb_lt in E1. apply increasing_cons. split.
      * intros x [<- | Hin]; [exact E1 | specialize (Hy x Hin); lia].
      * apply increasing_cons. split; assumption.
    + destruct (k =? y) eqn:E2.
      * apply increasing_cons. split; assumption.
      * apply Z.ltb_ge in E1. apply Z.eqb_neq in E2.
        apply increasing_cons. split; [|apply IH; exact Hr].
        intros x Hin. apply insert_key_In in Hin.
        destruct Hin as [-> | Hin]; [lia | apply Hy; exact Hin].
Qed.

Lemma group_keys_increasing (by_ : list Z) : increasing (group_keys by_).
Proof.
  induction by_ as [|x r IH]; simpl.
  - intros i j a b _ Ha. destruct i; discriminate.
  - apply insert_key_increasing. exact IH.
Qed.

Lemma increasing_NoDup (ks : list Z) : increasing ks -> NoDup ks.
Proof.
  induction ks as [|k r IH]; intros Hs; [constructor|].
  apply increasing_cons in Hs. destruct Hs as [Hk Hr].
  constructor; [|apply IH; exact Hr].
  intros Hin. specialize (Hk k Hin). lia.
Qed.

(** ** Grouping by a key and rebasing each group *)

Section Groups.
Context {V : Type} `{Dtype V}.
Variable key : Timestamp -> Z.
Implicit Types (s x : Series V) (k : Z) (t : Timestamp).

Lemma group_bucket s k : group (map key (index s)) s k = bucket key s k.
Proof.
  unfold group, bucket, index. induction s as [|e r IH]; simpl; [reflexivity|].
  destruct (key (fst e) =? k); simpl; rewrite IH; reflexivity.
Qed.

Lemma find_bucket s k :
  find (fun e => key (fst e) =? k) s = hd_error (bucket key s k).
Proof.
  unfold bucket. induction s as [|e r IH]; simpl; [reflexivity|].
  destruct (key (fst e) =? k); simpl; [reflexivity | exact IH].
Qed.

Lemma bucket_In s k e : In e (bucket key s k) <-> In e s /\ key (fst e) = k.
Proof.
  unfold bucket. rewrite filter_In, Z.eqb_eq. reflexivity.
Qed.

Lemma index_rebase x : index (rebase x) = index x.
Proof.
  destruct x as [|e r]; [reflexivity|].
  unfold rebase, smap, index. rewrite map_map. reflexivity.
Qed.

Lemma subtract_first_rebase x : x <> [] -> subtract_first x = Returns (rebase x).
Proof.
  destruct x as [|e r]; [congruence | reflexivity].
Qed.

Lemma traverse_subtract_first (l : list (Series V)) :
  (forall x, In x l -> x <> []) ->
  traverse subtract_first l = Returns (map rebase l).
Proof.
  induction l as [|x r IH]; simpl; intros Hne; [reflexivity|].
  rewrite subtract_first_rebase by (apply Hne; left; reflexivity).
  simpl. rewrite IH by (intros y Hy; apply Hne; right; exact Hy).
  reflexivity.
Qed.

(** Every entry lies in exactly one bucket. *)
Lemma buckets_skip (e : Timestamp * V) s (ks : list Z) :
  ~ In (key (fst e)) ks ->
  flat_map (bucket key (e :: s)) ks = flat_map (bucket key s) ks.
Proof.
  induction ks as [|k r IH]; simpl; intros Hn; [reflexivity|].
  destruct (key (fst e) =? k) eqn:E.
  - apply Z.eqb_eq in E. exfalso. apply Hn. left. symmetry. exact E.
  - rewrite IH by (intros Hin; apply Hn; right; exact Hin). reflexivity.
Qed.

Lemma buckets_cons (e : Timestamp * V) s (ks : list Z) :
  NoDup ks -> In (key (fst e)) ks ->
  Permutation (flat_map (bucket key (e :: s)) ks) (e :: flat_map (bucket key s) ks).
Proof.
  induction ks as [|k r IH]; simpl; intros Hnd Hin; [contradiction|].
  inversion Hnd as [|? ? Hk Hr]; subst.
  destruct (key (fst e) =? k) eqn:E.
  - apply Z.eqb_eq in E. subst k.
    rewrite buckets_skip by exact Hk. reflexivity.
  - apply Z.eqb_neq in E. destruct Hin as [Hin | Hin]; [congruence|].
    rewrite (IH Hr Hin). symmetry. apply Permutation_middle.
Qed.

Lemma buckets_Permutation s (ks : list Z) :
  NoDup ks -> (forall e, In e s -> In (key (fst e)) ks) ->
  Permutation (flat_map (bucket key s) ks) s.
Proof.
  intros Hnd. induction s as [|e r IH]; intros Hcov.
  - replace (flat_map (bucket key []) ks) with (@nil (Timestamp * V)); [constructor|].
    clear. induction ks as [|k r IH]; simpl; [reflexivity | exact IH].
  - rewrite buckets_cons; [|exact Hnd | apply Hcov; left; reflexivity].
    constructor. apply IH. intros e' He'. apply Hcov. right. exact He'.
Qed.

Lemma index_rebased_buckets s (ks : list Z) :
  index (flat_map (fun k => rebase (bucket key s k)) ks)
  = index (flat_map (bucket key s) ks).
Proof.
  unfold index. induction ks as [|k r IH]; simpl; [reflexivity|].
  rewrite !map_app, IH. f_equal. apply index_rebase.
Qed.

Lemma bucket_first_Some s t v :
  In (t, v) s -> exists e0 rest,
    bucket key s (key t) = e0 :: rest /\ bucket_first key s t = Some (snd e0).
Proof.
  intros Hin. unfold bucket_first. rewrite find_bucket.
  assert (In (t, v) (bucket key s (key t))) as Hb by (apply bucket_In; auto).
  destruct (bucket key s (key t)) as [|e0 rest]; [contradiction|].
  exists e0, rest. split; reflexivity.
Qed.

(** [groupby(..).apply(lambda x: x - x.iloc[0])] in closed form. *)
Lemma groupby_apply_subtract_first s :
  NoDup (index s) ->
  groupby_apply (map key (index s)) s subtract_first
  = Returns (map (fun e => (fst e, option_map (dsub (snd e)) (bucket_first key s (fst e)))) s).
Proof.
  intros Hnd. unfold groupby_apply, groupby.
  set (ks := group_keys (map key (index s))).
  assert (forall e, In e s -> In (key (fst e)) ks) as Hcov.
  { intros e He. apply group_keys_In. unfold index. rewrite map_map.
    apply (in_map (fun e => key (fst e))). exact He. }
  assert (NoDup ks) as Hks by (apply increasing_NoDup, group_keys_increasing).
  rewrite (map_ext _ (bucket key s)) by (intros k; apply group_bucket).
  rewrite traverse_subtract_first.
  2:{ intros x Hx. apply in_map_iff in Hx. destruct Hx as [k [<- Hk]].
      apply (proj1 (group_keys_In (map key (index s)) k)) in Hk.
      unfold index in Hk. rewrite map_map in Hk.
      apply in_map_iff in Hk. destruct Hk as [[t v] [Ek Hin]]. simpl in Ek. subst k.
      destruct (bucket_first_Some s t v Hin) as [e0 [rest [Eb _]]].
      rewrite Eb. discriminate. }
  simpl. rewrite map_map, <- flat_map_concat_map.
  set (res := flat_map (fun k => rebase (bucket key s k)) ks).
  assert (NoDup (index res)) as Hres.
  { unfold res. rewrite index_rebased_buckets.
    apply (Permutation_NoDup (l := index s)); [|exact Hnd].
    symmetry. apply Permutation_map. apply buckets_Permutation; assumption. }
  rewrite (reindex_NoDup res _ Hres). f_equal.
  unfold index. rewrite map_map. apply map_ext_in. intros [t v] Hin. simpl.
  f_equal. destruct (bucket_first_Some s t v Hin) as [e0 [rest [Eb Ef]]].
  rewrite Ef. simpl. apply lookup_In; [exact Hres|].
  unfold res. apply in_flat_map. exists (key t). split.
  - apply (Hcov (t, v)). exact Hin.
  - rewrite Eb. unfold rebase, smap.
    apply (in_map (fun e => (fst e, dsub (snd e) (snd e0))) _ (t, v)).
    rewrite <- Eb. apply bucket_In. auto.
Qed.
End Groups.

(** ** The calendar and the grouping key *)

(** On every day from 1 January 1969 to 12 June 2037 the two
    descriptions of the calendar agree. *)
Lemma calendar_agrees_1969_2037 : calendar_agrees_from (-365) 25000 = true.
Proof. vm_compute. reflexivity. Qed.

Lemma march_year_range (doe : Z) :
  0 <= doe < 146097 ->
  let yoe := (doe - doe / 1460 + doe / 36524 - doe / 146096) / 365 in
  0 <= yoe <= 399 /\ 0 <= doe - (365 * yoe + yoe / 4 - yoe / 100) <= 365.
Proof.
  intros Hd yoe. subst yoe. Z.div_mod_to_equations. lia.
Qed.

Lemma dayofyear_range (t : Timestamp) : 1 <= dayofyear t <= 366.
Proof.
  unfold dayofyear, year_and_doy.
  set (doe := (t / ns_per_day + 719468) mod 146097).
  assert (0 <= doe < 146097) as Hd by (apply Z.mod_pos_bound; lia).
  destruct (march_year_range doe Hd) as [_ Hdoy].
  set (doy := doe - _) in *.
  destruct (doy <? 306) eqn:E; simpl.
  - apply Z.ltb_lt in E. destruct (is_leap _); lia.
  - apply Z.ltb_ge in E. lia.
Qed.

Lemma year_range (t : Timestamp) : in_int64 t -> 1677 <= year t <= 2262.
Proof.
  unfold in_int64, year, year_and_doy, ns_per_day. intros Ht.
  change (2 ^ 63) with 9223372036854775808 in Ht.
  set (z := t / 86400000000000 + 719468).
  assert (612716 <= z <= 826219) as Hz
    by (subst z; Z.div_mod_to_equations; lia).
  assert (0 <= z mod 146097 < 146097) as Hd by (apply Z.mod_pos_bound; lia).
  pose proof (march_year_range _ Hd) as Hy. cbv zeta in Hy.
  set (doe := z mod 146097) in *.
  set (yoe := (doe - doe / 1460 + doe / 36524 - doe / 146096) / 365) in *.
  assert (doe = z - 146097 * (z / 146097)) as Edoe
    by (subst doe; rewrite Z.mod_eq by lia; reflexivity).
  destruct (_ <? 306) eqn:E; simpl;
    [apply Z.ltb_lt in E | apply Z.ltb_ge in E];
    subst yoe; Z.div_mod_to_equations; lia.
Qed.

Ltac eval_to_nat :=
  repeat match goal with
    | |- context [Z.to_nat ?e] =>
        let v := eval vm_compute in (Z.to_nat e) in change (Z.to_nat e) with v
    | Hyp : context [Z.to_nat ?e] |- _ =>
        let v := eval vm_compute in (Z.to_nat e) in change (Z.to_nat e) with v in Hyp
    end.

Lemma tm_yday_range (d : datetime) : valid_datetime d -> 1 <= tm_yday d <= 366.
Proof.
  unfold valid_datetime, tm_yday, days_before_month, days_in_month.
  intros [_ [Hm Hd]].
  assert (dt_month d = 1 \/ dt_month d = 2 \/ dt_month d = 3 \/ dt_month d = 4 \/
          dt_month d = 5 \/ dt_month d = 6 \/ dt_month d = 7 \/ dt_month d = 8 \/
          dt_month d = 9 \/ dt_month d = 10 \/ dt_month d = 11 \/ dt_month d = 12)
    as Hcases by lia.
  clear Hm.
  repeat (destruct Hcases as [E | Hcases]; [rewrite E in *; clear E|]);
    try (rewrite Hcases in *; clear Hcases);
    eval_to_nat; destruct (is_leap (dt_year d));
    cbn [nth andb Z.ltb Z.eqb Z.compare Pos.compare Pos.compare_cont Pos.eqb] in *;
    lia.
Qed.

Lemma start_doy_fits (a : reset_date_t) :
  anchor_fits a -> - 2 ^ 63 + 366 < start_doy a < 2 ^ 63.
Proof.
  destruct a as [n | d]; simpl; intros Ha; [exact Ha|].
  pose proof (tm_yday_range d Ha). lia.
Qed.

(** The int64 key of the source is the key of the specification, on
    timestamps a DatetimeIndex can hold. *)
Lemma dormancy_year_bucket_key (start : Z) (t : Timestamp) :
  - 2 ^ 63 + 366 < start < 2 ^ 63 -> in_int64 t ->
  dormancy_year start t = bucket_key start t.
Proof.
  intros Hs Ht. unfold dormancy_year, bucket_key.
  pose proof (dayofyear_range t) as Hd. pose proof (year_range t Ht) as Hy.
  replace ((- 2 ^ 63 <=? start) && (start <? 2 ^ 63)) with true
    by (symmetry; apply andb_true_iff; split; [apply Z.leb_le | apply Z.ltb_lt]; lia).
  rewrite (wrap64_small (dayofyear t - start)) by (unfold in_int64; lia).
  apply wrap64_small. unfold in_int64.
  change (2 ^ 63) with 9223372036854775808 in *.
  Z.div_mod_to_equations. lia.
Qed.

Lemma find_ext_in {A} (p q : A -> bool) (l : list A) :
  (forall x, In x l -> p x = q x) -> find p l = find q l.
Proof.
  induction l as [|a r IH]; simpl; intros Hpq; [reflexivity|].
  rewrite <- (Hpq a) by (left; reflexivity).
  destruct (p a); [reflexivity|].
  apply IH. intros x Hx. apply Hpq. right. exact Hx.
Qed.

Lemma find_first {A} (p : A -> bool) (l : list A) (i : nat) (a : A) :
  nth_error l i = Some a -> p a = true ->
  (forall j b, (j < i)%nat -> nth_error l j = Some b -> p b = false) ->
  find p l = Some a.
Proof.
  revert i. induction l as [|x r IH]; intros i Hi Hp Hbefore.
  - destruct i; discriminate.
  - destruct i as [|i]; simpl in *.
    + inversion Hi; subst. rewrite Hp. reflexivity.
    + rewrite (Hbefore 0%nat x) by (simpl; (lia || reflexivity)).
      apply (IH i); [exact Hi | exact Hp|].
      intros j b Hj Hb. apply (Hbefore (S j)); [lia | exact Hb].
Qed.

Lemma bucket_first_key_ext {V} (k1 k2 : Timestamp -> Z) (s : Series V) (t : Timestamp) :
  (forall e, In e s -> k1 (fst e) = k2 (fst e)) -> k1 t = k2 t ->
  bucket_first k1 s t = bucket_first k2 s t.
Proof.
  intros Hs Ht. unfold bucket_first. f_equal.
  apply find_ext_in. intros e He. rewrite (Hs e He), Ht. reflexivity.
Qed.

#[export] Instance int64_exact : ExactDtype Z.
Proof.
  split; simpl.
  - intros x. rewrite Z.sub_diag. reflexivity.
  - intros a b c. apply wrap64_congr.
    rewrite Zminus_mod, !wrap64_mod, <- Zminus_mod. f_equal. lia.
Qed.

(** ** Dormancy-year reset: what [reset_chill_hours] returns *)

Section Reset.
Context {V : Type} `{Dtype V}.
Implicit Types (s : Series V) (a : reset_date_t).

(** The closed form behind every statement on the reset: each entry
    keeps its label and loses the first value of its bucket. *)
Lemma reset_chill_hours_closed_form s a :
  NoDup (index s) ->
  reset_chill_hours s a
  = Returns (map (fun e => (fst e,
               option_map (dsub (snd e))
                 (bucket_first (dormancy_year (start_doy a)) s (fst e)))) s).
Proof.
  intros Hnd. unfold reset_chill_hours.
  apply (groupby_apply_subtract_first (dormancy_year (start_doy a)) s Hnd).
Qed.

End Reset.

Lemma fold_right_add_init (l : list Z) (x : Z) :
  fold_right Z.add x l = fold_right Z.add 0 l + x.
Proof. induction l as [|a r IH]; simpl; [reflexivity | rewrite IH; lia]. Qed.

(** The day of the year the source reads off a date anchor is the one
    counted on the calendar. *)
Lemma anchor_day_start_doy (a : reset_date_t) :
  anchor_fits a -> start_doy a = anchor_day a.
Proof.
  destruct a as [n | d]; simpl; intros Ha; [reflexivity|].
  unfold valid_datetime in Ha. destruct Ha as [_ [Hm _]].
  rewrite fold_right_add_init.
  unfold tm_yday, days_before_month, days_in_month. f_equal.
  generalize (is_leap (dt_year d)). intros leap.
  assert (dt_month d = 1 \/ dt_month d = 2 \/ dt_month d = 3 \/ dt_month d = 4 \/
          dt_month d = 5 \/ dt_month d = 6 \/ dt_month d = 7 \/ dt_month d = 8 \/
          dt_month d = 9 \/ dt_month d = 10 \/ dt_month d = 11 \/ dt_month d = 12)
    as Hcases by lia.
  clear Hm.
  repeat (destruct Hcases as [E | Hcases]; [rewrite E; clear E|]);
    try (rewrite Hcases; clear Hcases);
    destruct leap; vm_compute; reflexivity.
Qed.

(** Under the hypotheses that keep the key in int64, every entry loses
    the first value of its bucket, the buckets being those of the
    specification's key at the anchor's day of the year. *)
Lemma reset_chill_hours_by_bucket_key {V : Type} `{Dtype V}
    (s : Series V) (a : reset_date_t) :
  NoDup (index s) -> Forall in_int64 (index s) -> anchor_fits a ->
  reset_chill_hours s a
  = Returns (map (fun e => (fst e,
               option_map (dsub (snd e))
                 (bucket_first (bucket_key (anchor_day a)) s (fst e)))) s).
Proof.
  intros Hnd Hts Ha.
  rewrite (reset_chill_hours_closed_form s a Hnd). f_equal.
  pose proof (start_doy_fits a Ha) as Hstart.
  rewrite Forall_forall in Hts.
  assert (forall e, In e s ->
            dormancy_year (start_doy a) (fst e) = bucket_key (anchor_day a) (fst e))
    as Hkey.
  { intros e He. rewrite <- (anchor_day_start_doy a Ha).
    apply dormancy_year_bucket_key; [exact Hstart|].
    apply Hts. unfold index. apply in_map. exact He. }
  apply map_ext_in. intros e He. do 2 f_equal.
  apply bucket_first_key_ext; [exact Hkey | apply (Hkey e He)].
Qed.

(** In binary64 [x - x] is +0 exactly when [x] is finite. *)
Lemma float_sub_self (x : float) :
  PrimFloat.sub x x = 0%float <-> PrimFloat.is_finite x = true.
Proof.
  unfold PrimFloat.is_finite, PrimFloat.is_nan, PrimFloat.is_infinity.
  rewrite !FloatAxioms.eqb_spec, FloatAxioms.abs_spec.
  pose proof (FloatAxioms.sub_spec x x) as E.
  assert (forall y, Prim2SF y = S754_zero false -> y = 0%float) as Hz.
  { intros y Hy. apply Prim2SF_inj. rewrite Hy. reflexivity. }
  assert (Prim2SF 0%float = S754_zero false) as E0 by reflexivity.
  assert (Prim2SF infinity = S754_infinity false) as Einf by reflexivity.
  rewrite Einf.
  destruct (Prim2SF x) as [sg | sg | | sg m e] eqn:Ex.
  - split; [reflexivity|]. intros _. apply Hz. rewrite E. destruct sg; reflexivity.
  - split; [|destruct sg; discriminate].
    intros E'. rewrite E', E0 in E. destruct sg; discriminate.
  - split; [|discriminate].
    intros E'. rewrite E', E0 in E. discriminate.
  - split.
    + intros _. cbn. unfold SFeqb, SFcompare. rewrite Pos.compare_refl, Z.compare_refl.
      destruct sg; reflexivity.
    + intros _. apply Hz. rewrite E. unfold SF64sub, SFsub.
      rewrite Z.sub_diag. reflexivity.
Qed.

Lemma int64_sub_self (x : Z) : dsub x x = dzero <-> true = true.
Proof. simpl. rewrite Z.sub_diag. split; reflexivity. Qed.

#[export] Instance int64_cancel : @CancelDtype Z int64_dtype :=
  {| cancels := fun _ => true; dsub_self := int64_sub_self |}.

#[export] Instance float64_cancel : @CancelDtype float float64_dtype :=
  {| cancels := PrimFloat.is_finite; dsub_self := float_sub_self |}.

(** C2 (as amended). For a non-empty chill-unit Series with distinct
    timestamps that a DatetimeIndex can hold and an anchor that is a
    calendar date
    or an integer the int64 key has room for, [reset_chill_hours]
    returns a Series where the entry at each position carries the input
    value minus, in the arithmetic of the dtype, the value of the first
    input entry with the same bucket key
    [year + (dayofyear - anchor day of year) // 366].  The first entry
    of a bucket therefore carries its own value minus itself: 0 when
    the dtype cancels that value (every int64, every finite float64),
    and something else when it does not (an infinite or NaN float64). *)
Theorem reset_chill_hours_rebases_each_bucket
    {V : Type} `{CancelDtype V} (s : Series V) (a : reset_date_t) :
  s <> [] -> NoDup (index s) -> Forall in_int64 (index s) -> anchor_fits a ->
  exists r,
    reset_chill_hours s a = Returns r /\
    List.length r = List.length s /\
    forall i t v, nth_error s i = Some (t, v) ->
      exists v0,
        bucket_first (bucket_key (anchor_day a)) s t = Some v0 /\
        nth_error r i = Some (t, Some (dsub v v0)) /\
        ((forall j t' v', (j < i)%nat -> nth_error s j = Some (t', v') ->
            bucket_key (anchor_day a) t' <> bucket_key (anchor_day a) t) ->
         v0 = v /\
         (cancels v = true -> nth_error r i = Some (t, Some dzero)) /\
         (cancels v = false ->
          exists o, nth_error r i = Some (t, Some o) /\ o <> dzero)).
Proof.
  intros _ Hnd Hts Ha.
  eexists. split; [apply (reset_chill_hours_by_bucket_key s a Hnd Hts Ha)|].
  split; [apply length_map|].
  intros i t v Hi.
  assert (In (t, v) s) as Hin by (eapply nth_error_In; exact Hi).
  destruct (bucket_first_Some (bucket_key (anchor_day a)) s t v Hin)
    as [e0 [rest [_ Ef]]].
  exists (snd e0). split; [exact Ef|].
  assert (nth_error
            (map (fun e => (fst e, option_map (dsub (snd e))
                    (bucket_first (bucket_key (anchor_day a)) s (fst e)))) s) i
          = Some (t, Some (dsub v (snd e0)))) as Enth.
  { rewrite nth_error_map, Hi. simpl. rewrite Ef. reflexivity. }
  split; [exact Enth|].
  intros Hfirst.
  assert (bucket_first (bucket_key (anchor_day a)) s t = Some v) as Eself.
  { unfold bucket_first.
    rewrite (find_first _ s i (t, v) Hi); [reflexivity | apply Z.eqb_refl|].
    intros j [t' v'] Hj Hb. simpl. apply Z.eqb_neq. eapply Hfirst; eassumption. }
  rewrite Ef in Eself. inversion Eself as [E]. rewrite E in *.
  split; [reflexivity|]. rewrite Enth. split.
  - intros Hc. apply dsub_self in Hc. rewrite Hc. reflexivity.
  - intros Hc. exists (dsub v v). split; [reflexivity|].
    intros E0. apply dsub_self in E0. congruence.
Qed.

(** C7. For a chill-unit Series with distinct timestamps and any
    anchor, [reset_chill_hours] returns a Series with as many entries as
    its input and the same timestamps in the same order. *)
Theorem reset_chill_hours_keeps_index
    {V : Type} `{Dtype V} (s : Series V) (a : reset_date_t) :
  NoDup (index s) ->
  exists r,
    reset_chill_hours s a = Returns r /\
    List.length r = List.length s /\
    index r = index s.
Proof.
  intros Hnd. eexists. split; [apply (reset_chill_hours_closed_form s a Hnd)|].
  split; [apply length_map|].
  unfold index. rewrite map_map. reflexivity.
Qed.

(** C10 (as amended). For a non-empty chill-unit Series of a dtype with
    exact subtraction (int64), with distinct timestamps that a
    DatetimeIndex can hold, and an anchor that is a calendar date or an integer the
    int64 key has room for, two entries with the same bucket key
    [year + (dayofyear - anchor day of year) // 366] keep their
    difference: the difference of their output values is the difference
    of their input values. *)
Theorem reset_chill_hours_preserves_differences
    {V : Type} `{ExactDtype V} (s : Series V) (a : reset_date_t) :
  s <> [] -> NoDup (index s) -> Forall in_int64 (index s) -> anchor_fits a ->
  exists r,
    reset_chill_hours s a = Returns r /\
    forall i j ti vi tj vj,
      nth_error s i = Some (ti, vi) -> nth_error s j = Some (tj, vj) ->
      bucket_key (anchor_day a) ti = bucket_key (anchor_day a) tj ->
      exists oi oj,
        nth_error r i = Some (ti, Some oi) /\
        nth_error r j = Some (tj, Some oj) /\
        dsub oi oj = dsub vi vj.
Proof.
  intros _ Hnd Hts Ha.
  eexists. split; [apply (reset_chill_hours_by_bucket_key s a Hnd Hts Ha)|].
  intros i j ti vi tj vj Hi Hj Hk.
  assert (bucket_first (bucket_key (anchor_day a)) s ti
          = bucket_first (bucket_key (anchor_day a)) s tj) as Esame.
  { unfold bucket_first. rewrite Hk. reflexivity. }
  destruct (bucket_first_Some (bucket_key (anchor_day a)) s ti vi)
    as [e0 [rest [_ Ef]]]; [eapply nth_error_In; exact Hi|].
  exists (dsub vi (snd e0)), (dsub vj (snd e0)).
  rewrite !nth_error_map, Hi, Hj. simpl. rewrite <- Esame, Ef. simpl.
  repeat split. apply dsub_cancel.
Qed.

(** C8 (as amended). [reset_chill_hours] does not check that an integer
    anchor is a day of the year: for a non-empty chill-unit Series with
    distinct timestamps that a DatetimeIndex can hold and every integer
    [n] the int64 key has room for, inside [1,366] or not, it returns a
    Series, each entry rebased on the first entry of its bucket under
    the key [year + (dayofyear - n) // 366], computed from [n] as it
    is. *)
Theorem reset_chill_hours_accepts_any_day_of_year
    {V : Type} `{Dtype V} (s : Series V) (n : Z) :
  s <> [] -> NoDup (index s) -> Forall in_int64 (index s) ->
  - 2 ^ 63 + 366 < n < 2 ^ 63 ->
  exists r,
    reset_chill_hours s (ResetInt n) = Returns r /\
    List.length r = List.length s /\
    forall i t v, nth_error s i = Some (t, v) ->
      exists v0,
        bucket_first (bucket_key n) s t = Some v0 /\
        nth_error r i = Some (t, Some (dsub v v0)).
Proof.
  intros _ Hnd Hts Hn. eexists.
  split; [apply (reset_chill_hours_by_bucket_key s (ResetInt n) Hnd Hts Hn)|].
  split; [apply length_map|].
  intros i t v Hi. cbn [anchor_day].
  destruct (bucket_first_Some (bucket_key n) s t v) as [e0 [rest [_ Ef]]];
    [eapply nth_error_In; exact Hi|].
  exists (snd e0). split; [exact Ef|].
  rewrite nth_error_map, Hi. simpl. rewrite Ef. reflexivity.
Qed.

Lemma two_year_series_NoDup : NoDup (index two_year_series).
Proof. apply is_unique_NoDup. reflexivity. Qed.

Lemma two_year_series_in_int64 : Forall in_int64 (index two_year_series).
Proof. repeat constructor; vm_compute; discriminate. Qed.

(** The reset at 1 January restarts the count in each calendar year. *)
Example reset_two_year_series_at_new_year :
  reset_chill_hours two_year_series (ResetInt 1)
  = Returns
      [ (at_date 2020 12 30 0, Some 0); (at_date 2020 12 31 0, Some 1);
        (at_date 2021 1 1 0, Some 0); (at_date 2021 1 2 0, Some 1);
        (at_date 2021 12 31 0, Some 7); (at_date 2022 1 1 0, Some 0) ].
Proof. vm_compute. reflexivity. Qed.

(** The same with the anchor given as a date, here 1 September: all of
    the winter 2020/21 is one bucket. *)
Example reset_two_year_series_at_september :
  reset_chill_hours two_year_series (ResetDatetime (mk_datetime 2019 9 1 0 0 0 0))
  = Returns
      [ (at_date 2020 12 30 0, Some 0); (at_date 2020 12 31 0, Some 1);
        (at_date 2021 1 1 0, Some 3); (at_date 2021 1 2 0, Some 4);
        (at_date 2021 12 31 0, Some 0); (at_date 2022 1 1 0, Some 1) ].
Proof. vm_compute. reflexivity. Qed.

(** The reset of a float64 Series, as [utah] produces them. *)
Example reset_float_series_at_new_year :
  reset_chill_hours
    [ (at_date 2020 12 31 22, 10.5%float); (at_date 2020 12 31 23, 11.5%float);
      (at_date 2021 1 1 0, 12.0%float); (at_date 2021 1 1 1, 11.0%float) ]
    (ResetInt 1)
  = Returns
      [ (at_date 2020 12 31 22, Some 0%float); (at_date 2020 12 31 23, Some 1.0%float);
        (at_date 2021 1 1 0, Some 0%float); (at_date 2021 1 1 1, Some (-1.0)%float) ].
Proof. vm_compute. reflexivity. Qed.

Lemma two_year_series_not_empty : two_year_series <> [].
Proof. discriminate. Qed.

Lemma september_2019_fits : anchor_fits (ResetDatetime (mk_datetime 2019 9 1 0 0 0 0)).
Proof. vm_compute. repeat split; discriminate. Qed.

Lemma reset_chill_hours_rebases_each_bucket_witness :
  two_year_series <> [] /\
  NoDup (index two_year_series) /\ Forall in_int64 (index two_year_series) /\
  anchor_fits (ResetDatetime (mk_datetime 2019 9 1 0 0 0 0)) /\
  exists r,
    reset_chill_hours two_year_series (ResetDatetime (mk_datetime 2019 9 1 0 0 0 0))
    = Returns r /\
    List.length r = List.length two_year_series /\
    forall i t v, nth_error two_year_series i = Some (t, v) ->
      exists v0,
        bucket_first
          (bucket_key (anchor_day (ResetDatetime (mk_datetime 2019 9 1 0 0 0 0))))
          two_year_series t = Some v0 /\
        nth_error r i = Some (t, Some (dsub v v0)) /\
        ((forall j t' v', (j < i)%nat -> nth_error two_year_series j = Some (t', v') ->
            bucket_key (anchor_day (ResetDatetime (mk_datetime 2019 9 1 0 0 0 0))) t'
            <> bucket_key (anchor_day (ResetDatetime (mk_datetime 2019 9 1 0 0 0 0))) t) ->
         v0 = v /\
         (cancels v = true -> nth_error r i = Some (t, Some dzero)) /\
         (cancels v = false ->
          exists o, nth_error r i = Some (t, Some o) /\ o <> dzero)).
Proof.
  refine (conj two_year_series_not_empty (conj two_year_series_NoDup
            (conj two_year_series_in_int64 (conj september_2019_fits _)))).
  exact (reset_chill_hours_rebases_each_bucket two_year_series
           (ResetDatetime (mk_datetime 2019 9 1 0 0 0 0))
           two_year_series_not_empty
           two_year_series_NoDup two_year_series_in_int64 september_2019_fits).
Defined.

(** C2, the claim as stated fails on a float64 Series: the chill units
    [landsberg] returns with base temperature 0 begin with +inf, and
    the first value of the bucket after the reset is inf - inf, NaN and
    not 0. *)
Lemma reset_chill_hours_first_value_not_zero :
  landsberg three_days 0 = ([], Returns zero_base_units) /\
  reset_chill_hours zero_base_units (ResetInt 1)
  = Returns [ (at_date 2020 1 1 0, Some nan); (at_date 2020 1 2 0, Some neg_infinity);
              (at_date 2020 1 3 0, Some nan) ] /\
  nan <> 0%float.
Proof.
  split; [vm_compute; reflexivity|]. split; [vm_compute; reflexivity|].
  intros E. apply (f_equal PrimFloat.is_nan) in E. vm_compute in E. discriminate.
Qed.

Lemma reset_chill_hours_keeps_index_witness :
  NoDup (index two_year_series) /\
  exists r,
    reset_chill_hours two_year_series (ResetDatetime (mk_datetime 2019 9 1 0 0 0 0))
      = Returns r /\
    List.length r = List.length two_year_series /\
    index r = index two_year_series.
Proof.
  split; [exact two_year_series_NoDup|].
  exact (reset_chill_hours_keeps_index two_year_series _ two_year_series_NoDup).
Defined.

Lemma reset_chill_hours_preserves_differences_witness :
  two_year_series <> [] /\
  NoDup (index two_year_series) /\ Forall in_int64 (index two_year_series) /\
  anchor_fits (ResetInt 1) /\
  exists r,
    reset_chill_hours two_year_series (ResetInt 1) = Returns r /\
    forall i j ti vi tj vj,
      nth_error two_year_series i = Some (ti, vi) ->
      nth_error two_year_series j = Some (tj, vj) ->
      bucket_key (anchor_day (ResetInt 1)) ti = bucket_key (anchor_day (ResetInt 1)) tj ->
      exists oi oj,
        nth_error r i = Some (ti, Some oi) /\
        nth_error r j = Some (tj, Some oj) /\
        dsub oi oj = dsub vi vj.
Proof.
  assert (anchor_fits (ResetInt 1)) as Ha by (vm_compute; split; reflexivity).
  refine (conj two_year_series_not_empty
            (conj two_year_series_NoDup (conj two_year_series_in_int64 (conj Ha _)))).
  exact (reset_chill_hours_preserves_differences two_year_series (ResetInt 1)
           two_year_series_not_empty two_year_series_NoDup two_year_series_in_int64 Ha).
Defined.

(** C10, the claim as stated fails on a float64 Series: on the chill
    units [landsberg] returns for three days with base temperature 3,
    all in the bucket of 2020, the second and third output values
    differ by 1.0000000000000002 and the input values by 1. *)
Lemma reset_chill_hours_float_differences :
  landsberg three_mild_days 3 = ([], Returns thirds) /\
  bucket_key 1 (at_date 2020 1 2 0) = bucket_key 1 (at_date 2020 1 3 0) /\
  reset_chill_hours thirds (ResetInt 1)
  = Returns [ (at_date 2020 1 1 0, Some 0%float);
              (at_date 2020 1 2 0, Some 0.3333333333333333%float);
              (at_date 2020 1 3 0, Some 1.3333333333333335%float) ] /\
  PrimFloat.sub 1.3333333333333335 0.3333333333333333 = 1.0000000000000002%float /\
  PrimFloat.sub 1.6666666666666667 0.6666666666666666 = 1%float /\
  1.0000000000000002%float <> 1%float.
Proof.
  repeat split; try (vm_compute; reflexivity).
  intros E. apply (f_equal (PrimFloat.eqb 1)) in E. vm_compute in E. discriminate.
Qed.

(** C8, the claim as stated fails: 400 is no day of the year, and the
    reset returns all the same (the buckets then start on day 34). *)
Lemma reset_chill_hours_anchor_400_returns :
  ~ (1 <= 400 <= 366) /\
  reset_chill_hours two_year_series (ResetInt 400)
  = Returns
      [ (at_date 2020 12 30 0, Some 0); (at_date 2020 12 31 0, Some 1);
        (at_date 2021 1 1 0, Some 3); (at_date 2021 1 2 0, Some 4);
        (at_date 2021 12 31 0, Some 0); (at_date 2022 1 1 0, Some 1) ].
Proof. split; [lia | vm_compute; reflexivity]. Qed.

Lemma reset_chill_hours_accepts_any_day_of_year_witness :
  two_year_series <> [] /\
  NoDup (index two_year_series) /\ Forall in_int64 (index two_year_series) /\
  - 2 ^ 63 + 366 < 400 < 2 ^ 63 /\
  exists r,
    reset_chill_hours two_year_series (ResetInt 400) = Returns r /\
    List.length r = List.length two_year_series /\
    forall i t v, nth_error two_year_series i = Some (t, v) ->
      exists v0,
        bucket_first (bucket_key 400) two_year_series t = Some v0 /\
        nth_error r i = Some (t, Some (dsub v v0)).
Proof.
  assert (- 2 ^ 63 + 366 < 400 < 2 ^ 63) as Hn by (vm_compute; split; reflexivity).
  refine (conj two_year_series_not_empty
            (conj two_year_series_NoDup (conj two_year_series_in_int64 (conj Hn _)))).
  exact (reset_chill_hours_accepts_any_day_of_year two_year_series 400
           two_year_series_not_empty two_year_series_NoDup two_year_series_in_int64 Hn).
Defined.

(** ** The opening block: frequency inference and resampling *)

Lemma deltas_hourly (idx : list Timestamp) :
  forallb (Z.eqb ns_per_hour) (deltas idx) = true <-> hourly_cadence idx.
Proof.
  unfold hourly_cadence. induction idx as [|a [|b r] IH].
  - simpl. split; [intros _ [|i] ? ? Hi; discriminate | reflexivity].
  - simpl. split; [|reflexivity].
    intros _ [|i] x y Hx Hy; simpl in *; [discriminate|].
    destruct i; discriminate.
  - change (deltas (a :: b :: r)) with ((b - a) :: deltas (b :: r)).
    cbn [forallb]. rewrite andb_true_iff, IH, Z.eqb_eq. split.
    + intros [Hd Hr] [|i] x y Hx Hy.
      * simpl in *. inversion Hx; inversion Hy; subst. lia.
      * apply (Hr i); assumption.
    + intros Hh. split.
      * specialize (Hh 0%nat a b eq_refl eq_refl). lia.
      * intros i x y Hx Hy. apply (Hh (S i)); assumption.
Qed.

Lemma insert_by_time_Permutation {V} (e : Timestamp * V) (l : Series V) :
  Permutation (insert_by_time e l) (e :: l).
Proof.
  induction l as [|x r IH]; simpl; [reflexivity|].
  destruct (fst e <=? fst x); [reflexivity|].
  rewrite IH. apply perm_swap.
Qed.

Lemma sort_index_Permutation {V} (s : Series V) : Permutation (sort_index s) s.
Proof.
  induction s as [|e r IH]; simpl; [reflexivity|].
  rewrite insert_by_time_Permutation. constructor. exact IH.
Qed.

Lemma date_range_hourly_cadence (first last : Z) :
  hourly_cadence (date_range first last ns_per_hour).
Proof.
  unfold hourly_cadence, date_range. intros i a b Ha Hb.
  rewrite nth_error_map in Ha, Hb.
  destruct (nth_error (seq 0 _) i) as [k|] eqn:Ek; [|discriminate].
  destruct (nth_error (seq 0 _) (S i)) as [k'|] eqn:Ek'; [|discriminate].
  simpl in Ha, Hb. inversion Ha; inversion Hb; subst.
  assert (i < List.length (seq 0 (S (Z.to_nat ((last - first) / ns_per_hour)))))%nat
    as Hi by (apply nth_error_Some; congruence).
  assert (S i < List.length (seq 0 (S (Z.to_nat ((last - first) / ns_per_hour)))))%nat
    as HSi by (apply nth_error_Some; congruence).
  rewrite length_seq in Hi, HSi.
  rewrite nth_error_nth' with (d := 0%nat) in Ek by (rewrite length_seq; exact Hi).
  rewrite nth_error_nth' with (d := 0%nat) in Ek' by (rewrite length_seq; exact HSi).
  rewrite seq_nth in Ek, Ek' by assumption.
  inversion Ek; inversion Ek'; subst. lia.
Qed.

Lemma insert_by_time_In {V} (e x : Timestamp * V) (l : Series V) :
  In x (insert_by_time e l) <-> x = e \/ In x l.
Proof.
  split; intros Hx.
  - apply (Permutation_in _ (insert_by_time_Permutation e l)) in Hx.
    destruct Hx; auto.
  - apply (Permutation_in _ (Permutation_sym (insert_by_time_Permutation e l))).
    destruct Hx; [left | right]; auto.
Qed.

Lemma insert_by_time_sorted {V} (e : Timestamp * V) (l : Series V) :
  StronglySorted by_time l -> StronglySorted by_time (insert_by_time e l).
Proof.
  induction l as [|x r IH]; simpl; intros Hs.
  - constructor; constructor.
  - apply StronglySorted_inv in Hs. destruct Hs as [Hr Hx].
    destruct (fst e <=? fst x) eqn:E.
    + apply Z.leb_le in E. constructor; [constructor; assumption|].
      constructor; [exact E|].
      eapply Forall_impl; [|exact Hx]. unfold by_time. intros; lia.
    + apply Z.leb_gt in E. constructor; [apply IH; exact Hr|].
      apply Forall_forall. intros y Hy. apply insert_by_time_In in Hy.
      destruct Hy as [-> | Hy]; [unfold by_time; lia|].
      rewrite Forall_forall in Hx. apply Hx. exact Hy.
Qed.

Lemma sort_index_sorted {V} (s : Series V) : StronglySorted by_time (sort_index s).
Proof.
  induction s as [|e r IH]; simpl; [constructor|].
  apply insert_by_time_sorted. exact IH.
Qed.

Lemma sorted_last_max {V} (l : Series V) (t0 : Timestamp) :
  StronglySorted by_time l -> l <> [] ->
  In (last (index l) t0) (index l) /\ forall e, In e l -> fst e <= last (index l) t0.
Proof.
  induction l as [|x r IH]; intros Hs Hne; [congruence|].
  apply StronglySorted_inv in Hs. destruct Hs as [Hr Hx].
  destruct r as [|y q].
  - simpl. split; [left; reflexivity|]. intros e [<- | []]. lia.
  - destruct (IH Hr) as [Hin Hmax]; [discriminate|].
    change (last (index (x :: y :: q)) t0) with (last (index (y :: q)) t0).
    split; [right; exact Hin|].
    intros e [<- | He]; [|apply Hmax; exact He].
    rewrite Forall_forall in Hx. specialize (Hx y (or_introl eq_refl)).
    specialize (Hmax y (or_introl eq_refl)). unfold by_time in Hx. lia.
Qed.

(** On a sorted Series, [find] returns the earliest entry at or after
    the label. *)
Lemma find_next_sorted {V} (l : Series V) (label : Timestamp) (e : Timestamp * V) :
  StronglySorted by_time l ->
  find (fun e => label <=? fst e) l = Some e ->
  In e l /\ label <= fst e /\ forall e', In e' l -> label <= fst e' -> fst e <= fst e'.
Proof.
  unfold Timestamp in *.
  induction l as [|x r IH]; simpl; intros Hs Hf; [discriminate|].
  apply StronglySorted_inv in Hs. destruct Hs as [Hr Hx].
  match type of Hf with context [if ?c then _ else _] => destruct c eqn:E end.
  - inversion Hf; subst. apply Z.leb_le in E. split; [left; reflexivity|].
    split; [exact E|]. intros e' [<- | He'] _; [lia|].
    rewrite Forall_forall in Hx. apply (Hx e' He').
  - apply Z.leb_gt in E. destruct (IH Hr Hf) as [Hin [Hle Hmin]].
    split; [right; exact Hin|]. split; [exact Hle|].
    intros e' [<- | He'] Hl; [lia | apply Hmin; assumption].
Qed.

Lemma date_range_bounds (first last freq l : Z) :
  0 < freq -> first <= last -> In l (date_range first last freq) ->
  first <= l <= last.
Proof.
  intros Hf Hfl Hin. unfold date_range in Hin.
  apply in_map_iff in Hin. destruct Hin as [k [<- Hk]].
  apply in_seq in Hk.
  assert (Z.of_nat k <= (last - first) / freq) as Hq.
  { assert (0 <= (last - first) / freq) by (apply Z.div_pos; lia). lia. }
  assert (freq * ((last - first) / freq) <= last - first)
    by (apply Z.mul_div_le; lia).
  nia.
Qed.

Lemma floor_to_le (freq t : Z) : 0 < freq -> floor_to freq t <= t.
Proof.
  intros Hf. unfold floor_to. pose proof (Z.mod_pos_bound t freq Hf). lia.
Qed.

Lemma floor_to_mono (freq a b : Z) : 0 < freq -> a <= b -> floor_to freq a <= floor_to freq b.
Proof.
  intros Hf Hab. unfold floor_to.
  rewrite !Z.mod_eq by lia.
  replace (a - (a - freq * (a / freq))) with (freq * (a / freq)) by lia.
  replace (b - (b - freq * (b / freq))) with (freq * (b / freq)) by lia.
  apply Z.mul_le_mono_nonneg_l; [lia|]. apply Z.div_le_mono; lia.
Qed.

(** What [resample(freq).bfill()] returns. *)
Lemma resample_bfill_next_reading (freq : Z) (s : Series float) :
  0 < freq -> s <> [] -> NoDup (index s) -> resample_in_bounds freq (index s) ->
  exists r tmin tmax,
    resample_bfill freq s = Returns r /\
    In tmin (index s) /\ In tmax (index s) /\
    (forall t, In t (index s) -> tmin <= t <= tmax) /\
    index r = date_range (floor_to freq tmin) (floor_to freq tmax) freq /\
    forall l v, In (l, v) r ->
      exists t, In (t, v) s /\ l <= t /\
                forall t', In t' (index s) -> l <= t' -> t <= t'.
Proof.
  intros Hf Hne Hnd Hbounds. unfold resample_bfill.
  pose proof (sort_index_Permutation s) as Hperm.
  pose proof (sort_index_sorted s) as Hsorted.
  destruct (sort_index s) as [|[t0 v0] rest] eqn:Es.
  - apply Permutation_nil in Hperm. contradiction.
  - set (sorted := (t0, v0) :: rest) in *.
    assert (is_unique (index sorted) = true) as Hu.
    { apply is_unique_NoDup. apply (Permutation_NoDup (l := index s)); [|exact Hnd].
      symmetry. apply Permutation_map. exact Hperm. }
    destruct (sorted_last_max sorted t0 Hsorted) as [Hlast_in Hlast_max];
      [discriminate|].
    set (tmax := last (index sorted) t0) in *.
    assert (In t0 (index s)) as Hfirst_in.
    { apply (Permutation_in (l := index sorted)); [|left; reflexivity].
      apply Permutation_map. exact Hperm. }
    assert (In tmax (index s)) as Hlast_in'.
    { apply (Permutation_in (l := index sorted)); [|exact Hlast_in].
      apply Permutation_map. exact Hperm. }
    destruct (Hbounds t0 Hfirst_in) as [Hlow _].
    destruct (Hbounds tmax Hlast_in') as [_ Hhigh].
    apply Z.ltb_ge in Hlow. apply Z.ltb_ge in Hhigh.
    rewrite Hlow, Hhigh, Hu. cbn [orb].
    assert (forall e, In e sorted -> t0 <= fst e) as Hmin.
    { intros e [<- | He]; [simpl; lia|].
      apply StronglySorted_inv in Hsorted. destruct Hsorted as [_ Hx].
      rewrite Forall_forall in Hx. apply (Hx e He). }
    assert (forall t, In t (index s) <-> In t (index sorted)) as Hidx.
    { intros t. split; apply Permutation_in; [symmetry|]; apply Permutation_map; exact Hperm. }
    eexists. exists t0, tmax. split; [reflexivity|].
    split; [apply Hidx; left; reflexivity|].
    split; [apply Hidx; exact Hlast_in|].
    split.
    { intros t Ht. apply Hidx in Ht. unfold index in Ht. apply in_map_iff in Ht.
      destruct Ht as [e [<- He]]. split; [apply Hmin | apply Hlast_max]; exact He. }
    split.
    { unfold index. rewrite map_map.
      rewrite (map_ext _ (fun x => x)) by reflexivity. apply map_id. }
    intros l v Hin. apply in_map_iff in Hin. destruct Hin as [l' [El Hl]].
    inversion El; subst. clear El.
    assert (l <= tmax) as Hltmax.
    { assert (floor_to freq t0 <= floor_to freq tmax) as Hfl.
      { apply floor_to_mono; [exact Hf|].
        unfold index in Hlast_in. apply in_map_iff in Hlast_in.
        destruct Hlast_in as [e [Ee He]]. rewrite <- Ee. apply Hmin. exact He. }
      pose proof (date_range_bounds _ _ _ _ Hf Hfl Hl).
      pose proof (floor_to_le freq tmax Hf). lia. }
    unfold bfill_at.
    destruct (find (fun e => l <=? fst e) sorted) as [e|] eqn:Ef.
    + destruct (find_next_sorted sorted l e Hsorted Ef) as [He [Hle Hnext]].
      exists (fst e). split; [|split; [exact Hle|]].
      * apply (Permutation_in _ Hperm). destruct e; exact He.
      * intros t' Ht' Hlt'. apply Hidx in Ht'. unfold index in Ht'.
        apply in_map_iff in Ht'. destruct Ht' as [e' [<- He']].
        apply Hnext; assumption.
    + exfalso. unfold index in Hlast_in. apply in_map_iff in Hlast_in.
      destruct Hlast_in as [e [Ee He]].
      pose proof (find_none _ _ Ef e He) as Hn. simpl in Hn.
      apply Z.leb_gt in Hn. unfold Timestamp in *. lia.
Qed.

Lemma resample_bfill_returns (freq : Z) (s : Series float) :
  0 < freq -> s <> [] -> NoDup (index s) -> resample_in_bounds freq (index s) ->
  exists r first last,
    resample_bfill freq s = Returns r /\
    index r = date_range first last freq /\ r <> [].
Proof.
  intros Hf Hne Hnd Hbounds.
  destruct (resample_bfill_next_reading freq s Hf Hne Hnd Hbounds)
    as [r [tmin [tmax [Er [_ [_ [_ [Ei _]]]]]]]].
  exists r, (floor_to freq tmin), (floor_to freq tmax).
  split; [exact Er|]. split; [exact Ei|].
  intros E. rewrite E in Ei. unfold date_range in Ei. discriminate.
Qed.

Lemma resample_bfill_hourly (s : Series float) :
  s <> [] -> NoDup (index s) -> resample_in_bounds ns_per_hour (index s) ->
  exists r, resample_bfill ns_per_hour s = Returns r /\
            hourly_cadence (index r) /\ r <> [].
Proof.
  intros Hne Hnd Hbounds.
  destruct (resample_bfill_returns ns_per_hour s eq_refl Hne Hnd Hbounds)
    as [r [first [last [Er [Ei Hr]]]]].
  exists r. split; [exact Er|]. split; [|exact Hr].
  rewrite Ei. apply date_range_hourly_cadence.
Qed.

(** With fewer than three entries the block raises, whatever the
    entries are. *)
Lemma hourly_temps_short (df : DataFrame) :
  (List.length df < 3)%nat -> hourly_temps df = ([], Raises ValueError).
Proof.
  intros Hlen. unfold hourly_temps, infer_freq_is_H, index.
  rewrite length_map. apply Nat.ltb_lt in Hlen. rewrite Hlen. reflexivity.
Qed.

(** C6 (as amended). On an input with distinct timestamps, whose hourly
    bins lie inside the range of a Timestamp, the opening block of the
    hourly models raises ValueError when the input has fewer than three
    entries (frequency inference needs three), and otherwise returns,
    without raising, a non-empty Series on a regular hourly index. *)
Theorem hourly_temps_returns_hourly_from_three (df : DataFrame) :
  NoDup (index df) -> resample_in_bounds ns_per_hour (index df) ->
  ((List.length df < 3)%nat /\ hourly_temps df = ([], Raises ValueError)) \/
  ((3 <= List.length df)%nat /\
   exists out r, hourly_temps df = (out, Returns r) /\
                 hourly_cadence (index r) /\ r <> []).
Proof.
  intros Hnd Hbounds. destruct (Nat.ltb (List.length df) 3) eqn:Hlen.
  - left. apply Nat.ltb_lt in Hlen. split; [exact Hlen|].
    apply hourly_temps_short. exact Hlen.
  - right. pose proof Hlen as Hge. apply Nat.ltb_ge in Hge. split; [exact Hge|].
    assert (df <> []) as Hne by (destruct df; simpl in Hge; [lia | discriminate]).
    unfold hourly_temps, infer_freq_is_H, index. rewrite length_map, Hlen.
    fold (index df).
    destruct (forallb (Z.eqb ns_per_hour) (deltas (index df))) eqn:Eh; simpl.
    + exists [], (temp df). split; [reflexivity|]. split; [|exact Hne].
      apply deltas_hourly. exact Eh.
    + destruct (resample_bfill_hourly df Hne Hnd Hbounds) as [r [Er [Hh Hr]]].
      unfold temp. rewrite Er. exists [reindex_warning], r. auto.
Qed.

(** C6, the claim as stated fails: on an empty input and on a
    single-point input the block raises ValueError. *)
Lemma hourly_temps_raises_on_empty_and_single :
  hourly_temps [] = ([], Raises ValueError) /\
  hourly_temps [(at_date 2020 1 1 0, 5%float)] = ([], Raises ValueError) /\
  chilling_hours [] = ([], Raises ValueError).
Proof. repeat split. Qed.

Lemma hourly_temps_on_hourly (df : DataFrame) :
  (3 <= List.length df)%nat -> hourly_cadence (index df) ->
  hourly_temps df = ([], Returns (temp df)).
Proof.
  intros Hlen Hh.
  unfold hourly_temps, infer_freq_is_H, index. rewrite length_map.
  apply Nat.ltb_ge in Hlen. rewrite Hlen. fold (index df).
  apply deltas_hourly in Hh. rewrite Hh. reflexivity.
Qed.

(** C9 (as amended). On an input of at least three entries whose index
    is a strictly regular hourly cadence, the opening block returns the
    'temp' column unchanged and prints nothing, and so none of the
    hourly models prints the resampling warning. *)
Theorem hourly_temps_keeps_hourly_input (df : DataFrame) :
  (3 <= List.length df)%nat -> hourly_cadence (index df) ->
  hourly_temps df = ([], Returns (temp df)) /\
  stdout (chilling_hours df) = [] /\
  (forall fahrenheit_model, stdout (utah df fahrenheit_model) = []) /\
  stdout (positive_chill_units df) = [] /\
  stdout (low_chill df) = [] /\
  stdout (north_carolina df) = [] /\
  dynamic df = ([], Returns tt).
Proof.
  intros Hlen Hh.
  pose proof (hourly_temps_on_hourly df Hlen Hh) as E.
  unfold chilling_hours, utah, positive_chill_units, low_chill, north_carolina,
    dynamic.
  rewrite E. repeat split. intros [|]; reflexivity.
Qed.

(** C9, the claim as stated fails: two entries one hour apart are a
    regular hourly cadence, and the block raises ValueError on them. *)
Lemma hourly_temps_raises_on_two_hourly_points :
  hourly_cadence (index [(at_date 2020 1 1 0, 5%float); (at_date 2020 1 1 1, 6%float)]) /\
  hourly_temps [(at_date 2020 1 1 0, 5%float); (at_date 2020 1 1 1, 6%float)]
  = ([], Raises ValueError).
Proof.
  split; [|reflexivity].
  apply deltas_hourly. reflexivity.
Qed.

(** ** The worked examples of the hourly models *)

Lemma index_combine {V} (idx : list Timestamp) (vals : list V) :
  List.length idx = List.length vals -> index (combine idx vals) = idx.
Proof.
  unfold index. revert vals. induction idx as [|t r IH]; intros [|v vs] Hlen;
    simpl in *; try discriminate; [reflexivity|].
  f_equal. apply IH. lia.
Qed.

Lemma hourly_from_cadence {V} (t0 : Timestamp) (vals : list V) :
  hourly_cadence (index (hourly_from t0 vals)).
Proof.
  unfold hourly_from.
  rewrite index_combine by (rewrite length_map, length_seq; reflexivity).
  intros i a b Ha Hb. rewrite nth_error_map in Ha, Hb.
  destruct (nth_error (seq 0 _) i) as [k|] eqn:Ek; [|discriminate].
  destruct (nth_error (seq 0 _) (S i)) as [k'|] eqn:Ek'; [|discriminate].
  simpl in Ha, Hb. inversion Ha; inversion Hb; subst.
  assert (i < List.length (seq 0 (List.length vals)))%nat
    as Hi by (apply nth_error_Some; congruence).
  assert (S i < List.length (seq 0 (List.length vals)))%nat
    as HSi by (apply nth_error_Some; congruence).
  rewrite length_seq in Hi, HSi.
  rewrite nth_error_nth' with (d := 0%nat) in Ek by (rewrite length_seq; exact Hi).
  rewrite nth_error_nth' with (d := 0%nat) in Ek' by (rewrite length_seq; exact HSi).
  rewrite seq_nth in Ek, Ek' by assumption.
  inversion Ek; inversion Ek'; subst. lia.
Qed.

(** C3. On the hourly temperatures [8, 6, 7.2, 5, 9], from any starting
    hour, [chilling_hours] prints nothing and returns the counts
    [0, 1, 1, 2, 2] on the same index: the hours weigh [0, 1, 0, 1, 0]
    (7.2 is not below 7.2), and the result is their running sum. *)
Theorem chilling_hours_worked_example (t0 : Timestamp) :
  chilling_hours (hourly_from t0 [8; 6; 7.2; 5; 9]%float)
  = ([], Returns (hourly_from t0 [0; 1; 1; 2; 2])) /\
  map chilling_hours_weight [8; 6; 7.2; 5; 9]%float = [0; 1; 0; 1; 0] /\
  prefix_sums_from 0 [0; 1; 0; 1; 0] = [0; 1; 1; 2; 2].
Proof.
  split; [|split; reflexivity].
  unfold chilling_hours.
  rewrite hourly_temps_on_hourly;
    [ | simpl; lia | apply hourly_from_cadence ].
  vm_compute. reflexivity.
Qed.

(** C4. On the hourly temperatures [0, 2.0, 5.0, 17.0, 20.0], from any
    starting hour, [utah] with the metric thresholds prints nothing and
    returns [0, 0.5, 1.5, 1.0, 0.0] on the same index: the hours weigh
    [0, 0.5, 1.0, -0.5, -1.0] by the bands of the model, and the result
    is their running sum. *)
Theorem utah_worked_example (t0 : Timestamp) :
  utah (hourly_from t0 [0; 2.0; 5.0; 17.0; 20.0]%float) false
  = ([], Returns (hourly_from t0 [0; 0.5; 1.5; 1.0; 0.0]%float)) /\
  map utah_weight [0; 2.0; 5.0; 17.0; 20.0]%float = [0; 0.5; 1.0; -0.5; -1.0]%float /\
  np_cumsum [0; 0.5; 1.0; -0.5; -1.0]%float = [0; 0.5; 1.5; 1.0; 0.0]%float.
Proof.
  split; [|split; reflexivity].
  unfold utah.
  rewrite hourly_temps_on_hourly;
    [ | simpl; lia | apply hourly_from_cadence ].
  vm_compute. reflexivity.
Qed.

(** ** The daily model *)

(** C1, where the code departs from it: [landsberg] fills each day
    backward from the next reading instead of averaging the day.  On a
    day with 0 degrees at midnight and 24 at noon it accumulates 0, the
    midnight reading; the daily mean is 12. *)
Theorem landsberg_backfills_instead_of_averaging :
  landsberg midnight_and_noon 1 = ([], Returns [(at_date 2020 1 1 0, 0%float)]) /\
  landsberg_spec midnight_and_noon 1 = [(at_date 2020 1 1 0, 12%float)].
Proof. split; vm_compute; reflexivity. Qed.

Lemma div_zero_special (x : float) :
  PrimFloat.div x 0 = infinity \/ PrimFloat.div x 0 = neg_infinity \/
  PrimFloat.div x 0 = nan.
Proof.
  pose proof (FloatAxioms.div_spec x 0%float) as E.
  assert (Prim2SF 0%float = S754_zero false) as E0 by reflexivity.
  rewrite E0 in E.
  assert (forall y, Prim2SF y = S754_infinity false -> y = infinity) as Hinf.
  { intros y Hy. apply Prim2SF_inj. rewrite Hy. reflexivity. }
  assert (forall y, Prim2SF y = S754_infinity true -> y = neg_infinity) as Hninf.
  { intros y Hy. apply Prim2SF_inj. rewrite Hy. reflexivity. }
  assert (forall y, Prim2SF y = S754_nan -> y = nan) as Hnan.
  { intros y Hy. apply Prim2SF_inj. rewrite Hy. reflexivity. }
  destruct (Prim2SF x) as [s | s | | s m e] eqn:Ex; cbn in E;
    try (destruct s; cbn in E); auto.
Qed.

Lemma np_cumsum_length (l : list float) : List.length (np_cumsum l) = List.length l.
Proof.
  destruct l as [|x r]; [reflexivity|]. simpl. f_equal.
  generalize x. induction r as [|y r IH]; intros acc; simpl; [reflexivity|].
  f_equal. apply IH.
Qed.

Lemma map_fst_combine_same {A B C} (g : A -> C) (l : list A) (l' : list B) :
  List.length l' = List.length l ->
  map (fun p => g (fst p)) (combine l l') = map g l.
Proof.
  revert l'. induction l as [|a r IH]; intros [|b bs] Hlen; simpl in *;
    try discriminate; [reflexivity|].
  f_equal. apply IH. lia.
Qed.

Lemma cumsum_float_index (s : Series float) : index (cumsum_float s) = index s.
Proof.
  unfold cumsum_float, index. rewrite map_map. simpl.
  apply (map_fst_combine_same fst).
  rewrite np_cumsum_length, length_map. unfold values. apply length_map.
Qed.

(** C5 (as amended). [landsberg] does not check [base_temp]: on every
    non-empty input with distinct timestamps, whose days lie inside the
    range of a Timestamp, and base temperature zero it returns, without
    raising and without printing, a non-empty daily Series whose
    values, running sums divided by zero, are all infinite or NaN. *)
Theorem landsberg_zero_base_returns (df : DataFrame) :
  df <> [] -> NoDup (index df) -> resample_in_bounds ns_per_day (index df) ->
  exists r first last,
    landsberg df 0 = ([], Returns r) /\
    r <> [] /\
    index r = date_range first last ns_per_day /\
    Forall (fun x => x = infinity \/ x = neg_infinity \/ x = nan) (values r).
Proof.
  intros Hne Hnd Hbounds.
  destruct (resample_bfill_returns ns_per_day df eq_refl Hne Hnd Hbounds)
    as [daily [first [last [Er [Ei Hr]]]]].
  unfold landsberg, temp. rewrite Er. simpl.
  eexists. exists first, last. split; [reflexivity|].
  assert (index (smap (fun x => PrimFloat.div x 0) (cumsum_float daily)) = index daily)
    as Eidx.
  { unfold smap, index. rewrite map_map. simpl. apply cumsum_float_index. }
  split; [|split].
  - intros E. rewrite E in Eidx. destruct daily; [contradiction | discriminate].
  - rewrite Eidx. exact Ei.
  - unfold smap, values. rewrite map_map. simpl.
    apply Forall_map. apply Forall_forall. intros e _. apply div_zero_special.
Qed.

(** C5, the claim as stated fails: with base temperature zero the call
    returns; the running sums 4, -2, 0 become +inf, -inf and NaN. *)
Lemma landsberg_zero_base_three_days :
  three_days <> [] /\
  landsberg three_days 0
  = ([], Returns [ (at_date 2020 1 1 0, infinity); (at_date 2020 1 2 0, neg_infinity);
                   (at_date 2020 1 3 0, nan) ]).
Proof. split; [discriminate | vm_compute; reflexivity]. Qed.

Lemma three_days_in_bounds : resample_in_bounds ns_per_day (index three_days).
Proof.
  intros t Ht. simpl in Ht.
  repeat (destruct Ht as [<- | Ht]; [vm_compute; split; discriminate|]).
  contradiction.
Qed.

Lemma uneven_morning_in_bounds : resample_in_bounds ns_per_hour (index uneven_morning).
Proof.
  intros t Ht. simpl in Ht.
  repeat (destruct Ht as [<- | Ht]; [vm_compute; split; discriminate|]).
  contradiction.
Qed.

Lemma landsberg_zero_base_returns_witness :
  three_days <> [] /\ NoDup (index three_days) /\
  resample_in_bounds ns_per_day (index three_days) /\
  exists r first last,
    landsberg three_days 0 = ([], Returns r) /\
    r <> [] /\
    index r = date_range first last ns_per_day /\
    Forall (fun x => x = infinity \/ x = neg_infinity \/ x = nan) (values r).
Proof.
  assert (three_days <> []) as Hne by discriminate.
  assert (NoDup (index three_days)) as Hnd by (apply is_unique_NoDup; reflexivity).
  exact (conj Hne (conj Hnd (conj three_days_in_bounds
           (landsberg_zero_base_returns three_days Hne Hnd three_days_in_bounds)))).
Defined.

(** Resampling fills each hour backward from the next reading, and the
    warning is printed. *)
Example chilling_hours_resamples_uneven_morning :
  chilling_hours uneven_morning
  = ([reindex_warning],
     Returns [ (at_date 2020 1 1 0, 0); (at_date 2020 1 1 1, 1);
               (at_date 2020 1 1 2, 2); (at_date 2020 1 1 3, 2) ]).
Proof. vm_compute. reflexivity. Qed.

Lemma hourly_temps_returns_hourly_from_three_witness :
  NoDup (index uneven_morning) /\
  resample_in_bounds ns_per_hour (index uneven_morning) /\
  (((List.length uneven_morning < 3)%nat /\
    hourly_temps uneven_morning = ([], Raises ValueError)) \/
   ((3 <= List.length uneven_morning)%nat /\
    exists out r, hourly_temps uneven_morning = (out, Returns r) /\
                  hourly_cadence (index r) /\ r <> [])).
Proof.
  assert (NoDup (index uneven_morning)) as Hnd by (apply is_unique_NoDup; reflexivity).
  exact (conj Hnd (conj uneven_morning_in_bounds
           (hourly_temps_returns_hourly_from_three uneven_morning Hnd
              uneven_morning_in_bounds))).
Defined.

Lemma hourly_temps_keeps_hourly_input_witness :
  (3 <= List.length five_hours)%nat /\ hourly_cadence (index five_hours) /\
  hourly_temps five_hours = ([], Returns (temp five_hours)) /\
  stdout (chilling_hours five_hours) = [] /\
  (forall fahrenheit_model, stdout (utah five_hours fahrenheit_model) = []) /\
  stdout (positive_chill_units five_hours) = [] /\
  stdout (low_chill five_hours) = [] /\
  stdout (north_carolina five_hours) = [] /\
  dynamic five_hours = ([], Returns tt).
Proof.
  assert (3 <= List.length five_hours)%nat as Hlen by (vm_compute; lia).
  assert (hourly_cadence (index five_hours)) as Hh
    by (apply deltas_hourly; reflexivity).
  exact (conj Hlen (conj Hh (hourly_temps_keeps_hourly_input five_hours Hlen Hh))).
Defined.

(** * Further properties of the models *)

Ltac sf_cases :=
  simpl;
  repeat match goal with
    | |- context [Pos.compare_cont Eq ?x ?y] =>
        change (Pos.compare_cont Eq x y) with (Pos.compare x y)
    end;
  repeat match goal with
    | b : bool |- _ => destruct b
    | |- context [Z.compare ?x ?y] => destruct (Z.compare_spec x y); subst
    | |- context [Pos.compare ?x ?y] => destruct (Pos.compare_spec x y); subst
    end;
  simpl; intuition (try congruence; try lia).

Lemma sf_lt_le_trans (a b c : spec_float) :
  sf_lt a b -> sf_le b c -> sf_lt a c.
Proof.
  unfold sf_lt, sf_le.
  destruct a as [sa | sa | | sa ma ea], b as [sb | sb | | sb mb eb],
    c as [sc | sc | | sc mc ec]; sf_cases.
Qed.

Lemma sf_le_lt_trans (a b c : spec_float) :
  sf_le a b -> sf_lt b c -> sf_lt a c.
Proof.
  unfold sf_lt, sf_le.
  destruct a as [sa | sa | | sa ma ea], b as [sb | sb | | sb mb eb],
    c as [sc | sc | | sc mc ec]; sf_cases.
Qed.

Lemma sf_lt_irrefl (a : spec_float) : ~ sf_lt a a.
Proof.
  unfold sf_lt. destruct a as [sa | sa | | sa ma ea]; sf_cases.
Qed.

Lemma ltb_sf_lt (x y : float) : PrimFloat.ltb x y = true <-> sf_lt (Prim2SF x) (Prim2SF y).
Proof.
  rewrite FloatAxioms.ltb_spec. unfold SFltb, sf_lt.
  destruct (SFcompare _ _) as [[| |]|]; split; congruence.
Qed.

Lemma leb_sf_le (x y : float) : PrimFloat.leb x y = true <-> sf_le (Prim2SF x) (Prim2SF y).
Proof.
  rewrite FloatAxioms.leb_spec. unfold SFleb, sf_le.
  destruct (SFcompare _ _) as [[| |]|]; split; intuition congruence.
Qed.

Lemma sf_le_trans (a b c : spec_float) :
  sf_le a b -> sf_le b c -> sf_le a c.
Proof.
  unfold sf_le.
  destruct a as [sa | sa | | sa ma ea], b as [sb | sb | | sb mb eb],
    c as [sc | sc | | sc mc ec]; sf_cases.
Qed.

(** b < x, x <= a, a <= b is impossible. *)
Lemma float_bands_apart (a b x : float) :
  PrimFloat.leb a b = true -> PrimFloat.leb x a = true -> PrimFloat.ltb b x = true -> False.
Proof.
  rewrite !leb_sf_le, ltb_sf_lt. intros Hab Hxa Hbx.
  apply (sf_lt_irrefl (Prim2SF b)).
  apply (sf_lt_le_trans _ (Prim2SF x)); [exact Hbx|].
  apply (sf_le_trans _ (Prim2SF a)); assumption.
Qed.

Lemma float_lt_weaken (a b x : float) :
  PrimFloat.leb a b = true -> PrimFloat.ltb b x = true -> PrimFloat.ltb a x = true.
Proof.
  rewrite leb_sf_le, !ltb_sf_lt. apply sf_le_lt_trans.
Qed.

Lemma float_sub_zero (p : float) : PrimFloat.sub p 0 = p.
Proof.
  apply Prim2SF_inj. rewrite FloatAxioms.sub_spec.
  change (Prim2SF 0) with (S754_zero false).
  destruct (Prim2SF p) as [[|] | [|] | | s m e]; reflexivity.
Qed.

Lemma length_smap {V W} (f : V -> W) (s : Series V) :
  List.length (smap f s) = List.length s.
Proof. apply length_map. Qed.

Lemma index_smap {V W} (f : V -> W) (s : Series V) : index (smap f s) = index s.
Proof. unfold smap, index. rewrite map_map. reflexivity. Qed.

Lemma length_szip {U V W} (f : U -> V -> W) (a : Series U) (b : Series V) :
  List.length a = List.length b -> List.length (szip f a b) = List.length a.
Proof.
  intros E. unfold szip. rewrite length_map, length_combine. lia.
Qed.

Lemma index_szip {U V W} (f : U -> V -> W) (a : Series U) (b : Series V) :
  List.length a = List.length b -> index (szip f a b) = index a.
Proof.
  intros E. unfold szip, index. rewrite map_map. simpl.
  apply (map_fst_combine_same fst). symmetry. exact E.
Qed.

Lemma nth_error_szip {U V W} (f : U -> V -> W) (a : Series U) (b : Series V)
    (i : nat) (t t' : Timestamp) (u : U) (v : V) :
  nth_error a i = Some (t, u) -> nth_error b i = Some (t', v) ->
  nth_error (szip f a b) i = Some (t, f u v).
Proof.
  unfold szip. revert b i. induction a as [|x r IH]; intros [|y q] [|i] Ha Hb;
    simpl in *; try discriminate.
  - inversion Ha; inversion Hb; subst. reflexivity.
  - apply IH; assumption.
Qed.

Lemma nth_error_smap {V W} (f : V -> W) (s : Series V) (i : nat) (t : Timestamp) (v : V) :
  nth_error s i = Some (t, v) -> nth_error (smap f s) i = Some (t, f v).
Proof.
  intros E. unfold smap. rewrite nth_error_map, E. reflexivity.
Qed.

Lemma length_cumsum_bool_from (acc : Z) (s : Series bool) :
  List.length (cumsum_bool_from acc s) = List.length s.
Proof.
  revert acc. induction s as [|[t b] r IH]; intros acc; simpl; [reflexivity|].
  f_equal. apply IH.
Qed.

Lemma index_cumsum_bool (s : Series bool) : index (cumsum_bool s) = index s.
Proof.
  unfold cumsum_bool, index. generalize 0.
  induction s as [|[t b] r IH]; intros acc; simpl; [reflexivity|].
  f_equal. apply IH.
Qed.

Lemma cumsum_bool_from_nth (s : Series bool) (acc : Z) (i : nat) (t : Timestamp) (b : bool) :
  0 <= acc -> acc + Z.of_nat (List.length s) < 2 ^ 63 ->
  nth_error s i = Some (t, b) ->
  nth_error (cumsum_bool_from acc s) i
  = Some (t, acc + Z.of_nat (List.length (filter (fun x => x) (firstn (S i) (values s))))).
Proof.
  revert acc i. induction s as [|[t0 b0] r IH]; intros acc i Hacc Hlen Hi.
  - destruct i; discriminate.
  - cbn [cumsum_bool_from].
    assert (wrap64 (acc + Z.b2z b0) = acc + Z.b2z b0) as Ew.
    { apply wrap64_small. unfold in_int64. simpl List.length in Hlen.
      destruct b0; simpl; lia. }
    rewrite Ew. destruct i as [|i]; simpl in Hi.
    + inversion Hi; subst. simpl. destruct b; simpl; f_equal; f_equal; lia.
    + simpl List.length in Hlen. cbn zeta. cbn [nth_error].
      rewrite (IH (acc + Z.b2z b0) i);
        [ | destruct b0; simpl; lia | destruct b0; simpl; lia | exact Hi ].
      f_equal. f_equal.
      change (values ((t0, b0) :: r)) with (b0 :: values r).
      rewrite firstn_cons. cbn [filter].
      destruct b0; cbn [List.length Z.b2z]; lia.
Qed.

Lemma filter_values_smap (band : float -> bool) (temps : Series float) (n : nat) :
  List.length (filter (fun x => x) (firstn n (values (smap band temps))))
  = List.length (filter band (firstn n (values temps))).
Proof.
  unfold values, smap. rewrite map_map. simpl.
  revert n. induction temps as [|[t x] r IH]; intros [|n]; simpl; try reflexivity.
  destruct (band x); simpl; rewrite IH; reflexivity.
Qed.

(** The running count of a band. *)
Lemma cumsum_bool_band (band : float -> bool) (temps : Series float)
    (i : nat) (t : Timestamp) (x : float) :
  Z.of_nat (List.length temps) < 2 ^ 63 ->
  nth_error temps i = Some (t, x) ->
  nth_error (cumsum_bool (smap band temps)) i = Some (t, readings_in band temps i).
Proof.
  intros Hlen Hi. unfold cumsum_bool, readings_in.
  rewrite (cumsum_bool_from_nth _ 0 i t (band x));
    [ | lia | rewrite length_smap; lia | apply nth_error_smap; exact Hi ].
  rewrite filter_values_smap. reflexivity.
Qed.

Lemma sand_smap (p q : float -> bool) (temps : Series float) :
  sand (smap p temps) (smap q temps) = smap (fun x => p x && q x) temps.
Proof.
  unfold sand, szip, smap. induction temps as [|[t x] r IH]; simpl; [reflexivity|].
  f_equal. exact IH.
Qed.

Lemma readings_in_bounds (band : float -> bool) (temps : Series float) (i : nat) :
  0 <= readings_in band temps i <= Z.of_nat (S i).
Proof.
  unfold readings_in. split; [lia|].
  apply inj_le. etransitivity; [apply filter_length_le|].
  apply firstn_le_length.
Qed.

Lemma readings_in_step (band : float -> bool) (temps : Series float) (i : nat) (t : Timestamp) (x : float) :
  nth_error temps (S i) = Some (t, x) ->
  readings_in band temps (S i) = readings_in band temps i + Z.b2z (band x).
Proof.
  unfold readings_in, values. revert i.
  induction temps as [|[t0 x0] r IH]; intros i Hi; [discriminate|].
  simpl in Hi. destruct i as [|i].
  - destruct r as [|[t1 x1] r']; [discriminate|]. simpl in Hi. inversion Hi; subst.
    simpl. destruct (band x0), (band x); simpl; lia.
  - specialize (IH i Hi).
    change (map snd ((t0, x0) :: r)) with (x0 :: map snd r).
    rewrite !firstn_cons. cbn [filter].
    destruct (band x0); cbn [List.length]; lia.
Qed.

Lemma bind_hourly_temps {A} (df : DataFrame) (out : list string) (temps : Series float)
    (f : Series float -> A) :
  hourly_temps df = (out, Returns temps) ->
  bind (hourly_temps df) (fun temps => ret (f temps)) = (out, Returns (f temps)).
Proof.
  intros E. rewrite E. simpl. rewrite app_nil_r. reflexivity.
Qed.

Lemma readings_in_running_sum (band : float -> bool) (temps : Series float) (i : nat) :
  readings_in band temps i = running_sum (fun x => Z.b2z (band x)) temps i.
Proof.
  unfold readings_in, running_sum. generalize (firstn (S i) (values temps)).
  intros l. induction l as [|x r IH]; [reflexivity|].
  cbn [filter map fold_right]. rewrite <- IH.
  destruct (band x); cbn [List.length Z.b2z]; lia.
Qed.

Lemma running_sum_combine (w1 w2 w : float -> Z) (c : Z) (temps : Series float) (i : nat) :
  (forall x, w x = w1 x - c * w2 x) ->
  running_sum w temps i = running_sum w1 temps i - c * running_sum w2 temps i.
Proof.
  intros Hw. unfold running_sum. generalize (firstn (S i) (values temps)).
  intros l. induction l as [|x r IH]; simpl; [lia|].
  rewrite IH, Hw. lia.
Qed.

Lemma low_chill_weight_split (x : float) :
  low_chill_weight x
  = Z.b2z (PrimFloat.leb 1.8 x && PrimFloat.leb x 8) - 1 * Z.b2z (PrimFloat.ltb 19.5 x).
Proof.
  unfold low_chill_weight.
  destruct (PrimFloat.leb 1.8 x); simpl; [|destruct (PrimFloat.ltb 19.5 x); reflexivity].
  destruct (PrimFloat.leb x 8) eqn:E8; simpl;
    destruct (PrimFloat.ltb 19.5 x) eqn:E19; try reflexivity.
  exfalso. apply (float_bands_apart 8 19.5 x); [reflexivity | exact E8 | exact E19].
Qed.

Lemma north_carolina_weight_split (x : float) :
  north_carolina_weight x
  = Z.b2z (PrimFloat.leb 1.6 x && PrimFloat.leb x 7.2) - 2 * Z.b2z (PrimFloat.ltb 23.3 x).
Proof.
  unfold north_carolina_weight.
  destruct (PrimFloat.leb 1.6 x); simpl; [|destruct (PrimFloat.ltb 23.3 x); reflexivity].
  destruct (PrimFloat.leb x 7.2) eqn:E8; simpl;
    destruct (PrimFloat.ltb 23.3 x) eqn:E19; try reflexivity.
  exfalso. apply (float_bands_apart 7.2 23.3 x); [reflexivity | exact E8 | exact E19].
Qed.

Lemma cumsum_lt_running_sum (temps : Series float) (i : nat) (t : Timestamp) (x : float) :
  Z.of_nat (List.length temps) < 2 ^ 63 ->
  nth_error temps i = Some (t, x) ->
  nth_error (cumsum_bool (lt 7.2 temps)) i
  = Some (t, running_sum chilling_hours_weight temps i).
Proof.
  intros Hlen Hi. unfold lt.
  rewrite (cumsum_bool_band _ temps i t x Hlen Hi).
  rewrite readings_in_running_sum. reflexivity.
Qed.

(** X2. [chilling_hours] returns, at every position, the sum of the
    weights (1 below 7.2 degrees, else 0) of the readings up to and
    including that position, as long as the Series has fewer than 2^63
    entries (the int64 count cannot wrap). *)
Theorem chilling_hours_running_sum (df : DataFrame) (out : list string) (temps : Series float) :
  hourly_temps df = (out, Returns temps) ->
  Z.of_nat (List.length temps) < 2 ^ 63 ->
  exists r,
    chilling_hours df = (out, Returns r) /\
    List.length r = List.length temps /\
    forall i t x, nth_error temps i = Some (t, x) ->
      nth_error r i = Some (t, running_sum chilling_hours_weight temps i).
Proof.
  intros E Hlen. unfold chilling_hours.
  rewrite (bind_hourly_temps df out temps _ E).
  eexists. split; [reflexivity|]. split.
  - unfold cumsum_bool. rewrite length_cumsum_bool_from. apply length_smap.
  - intros i t x Hi. apply (cumsum_lt_running_sum temps i t x Hlen Hi).
Qed.

(** X4. [low_chill], written as the difference of two running counts,
    is the running sum of one weight per reading: +1 in [1.8, 8], -1
    above 19.5, else 0 (no reading is in both bands). *)
Theorem low_chill_running_sum (df : DataFrame) (out : list string) (temps : Series float) :
  hourly_temps df = (out, Returns temps) ->
  Z.of_nat (List.length temps) < 2 ^ 63 ->
  exists r,
    low_chill df = (out, Returns r) /\
    List.length r = List.length temps /\
    forall i t x, nth_error temps i = Some (t, x) ->
      nth_error r i = Some (t, running_sum low_chill_weight temps i).
Proof.
  intros E Hlen. unfold low_chill.
  rewrite (bind_hourly_temps df out temps _ E).
  eexists. split; [reflexivity|]. unfold ge, le, gt. rewrite sand_smap. split.
  - unfold isub. rewrite length_szip; unfold cumsum_bool;
      rewrite !length_cumsum_bool_from, !length_smap; reflexivity.
  - intros i t x Hi. unfold isub.
    rewrite (nth_error_szip _ _ _ i t t _ _
               (cumsum_bool_band _ temps i t x Hlen Hi)
               (cumsum_bool_band _ temps i t x Hlen Hi)).
    f_equal. f_equal.
    rewrite (running_sum_combine _ _ _ 1 temps i low_chill_weight_split).
    rewrite <- !readings_in_running_sum.
    pose proof (readings_in_bounds (fun x => PrimFloat.leb 1.8 x && PrimFloat.leb x 8) temps i).
    pose proof (readings_in_bounds (fun x => PrimFloat.ltb 19.5 x) temps i).
    assert (Z.of_nat (S i) <= Z.of_nat (List.length temps)).
    { apply inj_le. apply Nat.le_succ_l. apply nth_error_Some. congruence. }
    change (fun x0 : float => PrimFloat.ltb 19.5 x0) with (PrimFloat.ltb 19.5) in *.
    rewrite wrap64_small; [lia | unfold in_int64; lia].
Qed.

(** X5. [north_carolina] is the running sum of one weight per reading:
    +1 in [1.6, 7.2], -2 above 23.3, else 0, as long as the Series has
    fewer than 2^62 entries. *)
Theorem north_carolina_running_sum (df : DataFrame) (out : list string) (temps : Series float) :
  hourly_temps df = (out, Returns temps) ->
  Z.of_nat (List.length temps) < 2 ^ 62 ->
  exists r,
    north_carolina df = (out, Returns r) /\
    List.length r = List.length temps /\
    forall i t x, nth_error temps i = Some (t, x) ->
      nth_error r i = Some (t, running_sum north_carolina_weight temps i).
Proof.
  intros E Hlen. unfold north_carolina.
  rewrite (bind_hourly_temps df out temps _ E).
  assert (Z.of_nat (List.length temps) < 2 ^ 63) as Hlen' by lia.
  eexists. split; [reflexivity|]. unfold ge, le, gt. rewrite sand_smap. split.
  - unfold isub, iscale. rewrite length_szip; unfold cumsum_bool;
      rewrite ?length_smap, !length_cumsum_bool_from, !length_smap; reflexivity.
  - intros i t x Hi. unfold isub, iscale.
    rewrite (nth_error_szip _ _ _ i t t _ _
               (cumsum_bool_band _ temps i t x Hlen' Hi)
               (nth_error_smap _ _ i t _ (cumsum_bool_band _ temps i t x Hlen' Hi))).
    f_equal. f_equal.
    rewrite (running_sum_combine _ _ _ 2 temps i north_carolina_weight_split).
    rewrite <- !readings_in_running_sum.
    pose proof (readings_in_bounds (fun x => PrimFloat.leb 1.6 x && PrimFloat.leb x 7.2) temps i).
    pose proof (readings_in_bounds (fun x => PrimFloat.ltb 23.3 x) temps i).
    assert (Z.of_nat (S i) <= Z.of_nat (List.length temps)).
    { apply inj_le. apply Nat.le_succ_l. apply nth_error_Some. congruence. }
    change (fun x0 : float => PrimFloat.ltb 23.3 x0) with (PrimFloat.ltb 23.3) in *.
    rewrite (wrap64_small (2 * _)) by (unfold in_int64; lia).
    rewrite wrap64_small; [lia | unfold in_int64; lia].
Qed.

Ltac bands_apart :=
  repeat match goal with
    | |- context [PrimFloat.leb ?a ?x] =>
        lazymatch goal with
        | H : PrimFloat.leb a x = _ |- _ => fail
        | _ => let E := fresh "E" in destruct (PrimFloat.leb a x) eqn:E
        end
    | |- context [PrimFloat.ltb ?a ?x] =>
        lazymatch goal with
        | H : PrimFloat.ltb a x = _ |- _ => fail
        | _ => let E := fresh "E" in destruct (PrimFloat.ltb a x) eqn:E
        end
    end;
  cbn; try lia;
  exfalso;
  match goal with
  | Hle : PrimFloat.leb ?x ?a = true, Hlt : PrimFloat.ltb ?b ?x = true |- _ =>
      apply (float_bands_apart a b x); [reflexivity | exact Hle | exact Hlt]
  end.

Lemma bands_never_overlap (x : float) :
  (forall fahrenheit_model, (bands_hit (utah_bands fahrenheit_model x) <= 1)%nat) /\
  (bands_hit (low_chill_bands x) <= 1)%nat /\
  (bands_hit (north_carolina_bands x) <= 1)%nat.
Proof.
  split; [intros [|]|split]; unfold bands_hit, utah_bands, low_chill_bands,
    north_carolina_bands.
  all: bands_apart.
Qed.

Lemma masks_set_at_bands (bands : float -> list bool) (masks : list (Series bool))
    (temps : Series float) (i : nat) :
  (forall t x, nth_error temps i = Some (t, x) ->
     map (fun m => nth_error m i) masks = map (fun b => Some (t, b)) (bands x)) ->
  (nth_error temps i = None -> Forall (fun m => nth_error m i = None) masks) ->
  (forall x, (bands_hit (bands x) <= 1)%nat) ->
  (masks_set_at masks i <= 1)%nat.
Proof.
  intros Hsome Hnone Hb. unfold masks_set_at.
  destruct (nth_error temps i) as [[t x]|] eqn:Ei.
  - specialize (Hsome t x eq_refl). specialize (Hb x). unfold bands_hit in Hb.
    match goal with |- (?n <= 1)%nat =>
      replace n with (List.length (filter (fun b => b) (bands x))); [exact Hb|] end.
    revert Hsome. generalize (bands x). clear.
    induction masks as [|m r IH]; intros [|b bs] Hm; simpl in *; try discriminate;
      [reflexivity|].
    inversion Hm as [[E1 E2]]. rewrite E1.
    destruct b; simpl; rewrite (IH bs E2); reflexivity.
  - specialize (Hnone eq_refl). clear Hsome Hb.
    induction Hnone as [|m r Hm _ IH]; simpl; [lia|].
    rewrite Hm. exact IH.
Qed.

Lemma nth_error_smap_None {V W} (f : V -> W) (s : Series V) (i : nat) :
  nth_error s i = None -> nth_error (smap f s) i = None.
Proof.
  intros E. unfold smap. rewrite nth_error_map, E. reflexivity.
Qed.

(** X6. At every position at most one of the boolean Series a model
    builds is true: the bands of utah (either threshold set), of
    low_chill and of north_carolina never overlap, for any reading,
    NaN and the infinities included. *)
Theorem masks_never_overlap (temps : Series float) (i : nat) :
  (forall fahrenheit_model, (masks_set_at (utah_masks fahrenheit_model temps) i <= 1)%nat) /\
  (masks_set_at (low_chill_masks temps) i <= 1)%nat /\
  (masks_set_at (north_carolina_masks temps) i <= 1)%nat.
Proof.
  split; [intros f|split].
  - apply (masks_set_at_bands (utah_bands f) _ temps).
    + intros t x Hi. destruct f; unfold utah_masks, utah_bands, gt, le;
        rewrite !sand_smap; cbn [map];
        rewrite !(nth_error_smap _ temps i t x Hi); reflexivity.
    + intros Hi. destruct f; unfold utah_masks, gt, le; rewrite !sand_smap;
        repeat constructor; apply nth_error_smap_None; exact Hi.
    + intros x. apply bands_never_overlap.
  - apply (masks_set_at_bands low_chill_bands _ temps).
    + intros t x Hi. unfold low_chill_masks, low_chill_bands, gt, ge, le.
      rewrite !sand_smap. cbn [map].
      rewrite !(nth_error_smap _ temps i t x Hi). reflexivity.
    + intros Hi. unfold low_chill_masks, gt, ge, le. rewrite !sand_smap.
      repeat constructor; apply nth_error_smap_None; exact Hi.
    + intros x. apply bands_never_overlap.
  - apply (masks_set_at_bands north_carolina_bands _ temps).
    + intros t x Hi. unfold north_carolina_masks, north_carolina_bands, gt, ge, le.
      rewrite !sand_smap. cbn [map].
      rewrite !(nth_error_smap _ temps i t x Hi). reflexivity.
    + intros Hi. unfold north_carolina_masks, gt, ge, le. rewrite !sand_smap.
      repeat constructor; apply nth_error_smap_None; exact Hi.
    + intros x. apply bands_never_overlap.
Qed.

Lemma length_cumsum_bool (s : Series bool) : List.length (cumsum_bool s) = List.length s.
Proof. apply length_cumsum_bool_from. Qed.

Lemma length_sand (a b : Series bool) :
  List.length a = List.length b -> List.length (sand a b) = List.length a.
Proof. apply length_szip. Qed.

Lemma index_sand_smap (p q : float -> bool) (temps : Series float) :
  index (sand (smap p temps) (smap q temps)) = index temps.
Proof. rewrite sand_smap. apply index_smap. Qed.

Ltac series_shape :=
  repeat first
    [ reflexivity
    | rewrite length_smap
    | rewrite length_cumsum_bool
    | rewrite index_smap
    | rewrite index_cumsum_bool
    | rewrite sand_smap
    | rewrite length_szip
    | rewrite index_szip ].

Lemma stdout_bind_ret {A B} (m : py A) (f : A -> B) :
  stdout (bind m (fun a => ret (f a))) = stdout m.
Proof.
  destruct m as [out [a | e]]; simpl; [apply app_nil_r | reflexivity].
Qed.

(** X1. Whatever Series of hourly temperatures the opening block hands
    over (the input itself, or its resampling), each of chilling_hours,
    utah (both threshold sets), positive_chill_units, low_chill and
    north_carolina prints nothing more and returns a Series on exactly
    that index: one value per timestamp, in the same order. *)
Theorem hourly_models_keep_index (df : DataFrame) (out : list string) (temps : Series float) :
  hourly_temps df = (out, Returns temps) ->
  (exists r, chilling_hours df = (out, Returns r) /\ index r = index temps) /\
  (forall fahrenheit_model,
     exists r, utah df fahrenheit_model = (out, Returns r) /\ index r = index temps) /\
  (exists r, positive_chill_units df = (out, Returns r) /\ index r = index temps) /\
  (exists r, low_chill df = (out, Returns r) /\ index r = index temps) /\
  (exists r, north_carolina df = (out, Returns r) /\ index r = index temps).
Proof.
  intros E.
  unfold chilling_hours, utah, positive_chill_units, low_chill, north_carolina.
  repeat split; try intros [|];
    try rewrite (bind_hourly_temps df out temps _ E);
    try (rewrite E; simpl; rewrite app_nil_r);
    eexists; (split; [reflexivity|]);
    unfold fsub, fadd, isub, iscale, fscale, lt, gt, ge, le; series_shape.
Qed.

(** The readings the models see are readings of the input: resampling
    copies values, and fills NaN where it finds none. *)
Lemma bfill_at_from_input (sorted : Series float) (l : Timestamp) :
  In (bfill_at sorted l) (values sorted) \/ bfill_at sorted l = nan.
Proof.
  unfold bfill_at.
  destruct (find (fun e => l <=? fst e) sorted) as [e|] eqn:E; [left | right; reflexivity].
  apply find_some in E. unfold values. apply in_map. apply E.
Qed.

Lemma resample_bfill_values (freq : Z) (s r : Series float) :
  resample_bfill freq s = Returns r ->
  forall x, In x (values r) -> In x (values s) \/ x = nan.
Proof.
  unfold resample_bfill. pose proof (sort_index_Permutation s) as Hperm.
  destruct (sort_index s) as [|[t0 v0] rest]; intros E x Hx.
  - assert (r = []) as -> by congruence. contradiction.
  - set (labels := date_range _ _ freq) in E.
    destruct (_ || _); [discriminate|].
    destruct (is_unique _); [|discriminate].
    assert (r = map (fun l => (l, bfill_at ((t0, v0) :: rest) l)) labels) as ->
      by congruence.
    unfold values in Hx. rewrite map_map in Hx.
    apply in_map_iff in Hx. destruct Hx as [l [<- _]]. cbn [snd].
    destruct (bfill_at_from_input ((t0, v0) :: rest) l) as [Hin | Hn]; [left | right; exact Hn].
    unfold values in *. apply (Permutation_in _ (Permutation_map snd Hperm)). exact Hin.
Qed.

Lemma hourly_temps_values (df : DataFrame) (out : list string) (temps : Series float) :
  hourly_temps df = (out, Returns temps) ->
  forall x, In x (values temps) -> In x (values df) \/ x = nan.
Proof.
  unfold hourly_temps. destruct (infer_freq_is_H (index df)) as [[|]|e]; simpl.
  - intros E. inversion E; subst. auto.
  - destruct (resample_bfill ns_per_hour (temp df)) as [r|e] eqn:Er; simpl;
      intros E; inversion E; subst.
    apply (resample_bfill_values _ _ _ Er).
  - discriminate.
Qed.

Lemma cumsum_bool_all_false (p : float -> bool) (temps : Series float) :
  Forall (fun x => p x = false) (values temps) ->
  cumsum_bool (smap p temps) = smap (fun _ => 0) temps.
Proof.
  unfold cumsum_bool, smap, values. induction temps as [|[t x] r IH]; intros Hall;
    [reflexivity|].
  inversion Hall as [|? ? Hx Hr]; subst. simpl in Hx. cbn [map cumsum_bool_from fst snd].
  rewrite Hx. change (wrap64 (0 + Z.b2z false)) with 0. cbn zeta.
  f_equal. apply IH. exact Hr.
Qed.

Lemma fsub_zeros (a : Series float) (temps : Series float) :
  List.length a = List.length temps ->
  fsub a (smap (fun _ => 0%float) temps) = a.
Proof.
  unfold fsub, szip, smap. revert temps.
  induction a as [|[t x] r IH]; intros [|[t' x'] r'] Hlen; simpl in *;
    try discriminate; [reflexivity|].
  rewrite float_sub_zero. f_equal. apply IH. lia.
Qed.

(** X7. On an input with no reading above 15.9 degrees, [utah] with the
    metric thresholds and [positive_chill_units] return the same thing
    (the same Series, the same printed lines, or the same exception). *)
Theorem utah_is_positive_chill_units_below_15_9 (df : DataFrame) :
  Forall (fun x => PrimFloat.ltb 15.9 x = false) (values df) ->
  utah df false = positive_chill_units df.
Proof.
  intros Hcold. unfold utah, positive_chill_units.
  destruct (hourly_temps df) as [out [temps | e]] eqn:E; [|reflexivity].
  simpl. f_equal. f_equal.
  assert (Forall (fun x => PrimFloat.ltb 15.9 x = false) (values temps)) as Htemps.
  { apply Forall_forall. intros x Hx.
    destruct (hourly_temps_values df out temps E x Hx) as [Hin | ->]; [|reflexivity].
    rewrite Forall_forall in Hcold. apply Hcold. exact Hin. }
  assert (cumsum_bool (sand (gt 15.9 temps) (le 18 temps)) = smap (fun _ => 0) temps) as E4.
  { unfold gt, le. rewrite sand_smap. apply cumsum_bool_all_false.
    eapply Forall_impl; [|exact Htemps]. intros x Hx. simpl in *. rewrite Hx. reflexivity. }
  assert (cumsum_bool (gt 18 temps) = smap (fun _ => 0) temps) as E5.
  { unfold gt. apply cumsum_bool_all_false.
    eapply Forall_impl; [|exact Htemps]. intros x Hx. simpl in *.
    destruct (PrimFloat.ltb 18 x) eqn:E18; [|reflexivity].
    rewrite (float_lt_weaken 15.9 18 x eq_refl E18) in Hx. discriminate. }
  rewrite E4, E5.
  change (fscale 0.5 (smap (fun _ => 0) temps)) with
    (smap (fun n => PrimFloat.mul 0.5 (float_of_int64 n)) (smap (fun _ : float => 0) temps)).
  change (fscale 1.0 (smap (fun _ => 0) temps)) with
    (smap (fun n => PrimFloat.mul 1.0 (float_of_int64 n)) (smap (fun _ : float => 0) temps)).
  assert (forall c, smap (fun n => PrimFloat.mul c (float_of_int64 n))
                      (smap (fun _ : float => 0) temps)
                    = smap (fun _ => PrimFloat.mul c (float_of_int64 0)) temps) as Esc.
  { intros c. unfold smap. rewrite map_map. reflexivity. }
  rewrite !Esc.
  change (PrimFloat.mul 0.5 (float_of_int64 0)) with 0%float.
  change (PrimFloat.mul 1.0 (float_of_int64 0)) with 0%float.
  rewrite fsub_zeros.
  - apply fsub_zeros.
    unfold fadd, fscale, gt, le. series_shape.
  - rewrite fsub_zeros; unfold fadd, fscale, gt, le; series_shape.
Qed.

Lemma firstn_plus {A} (n m : nat) (l : list A) :
  firstn (n + m) l = firstn n l ++ firstn m (skipn n l).
Proof.
  revert l. induction n as [|n IH]; intros [|a l]; simpl; try reflexivity.
  - destruct m; reflexivity.
  - f_equal. apply IH.
Qed.

Lemma running_sum_grows (weight : float -> Z) (lo hi : Z) (temps : Series float) (i j : nat) :
  (forall x, lo <= weight x <= hi) ->
  (i <= j)%nat -> (j < List.length temps)%nat ->
  lo * Z.of_nat (j - i) <= running_sum weight temps j - running_sum weight temps i
  <= hi * Z.of_nat (j - i).
Proof.
  intros Hw Hij Hj. unfold running_sum.
  replace (S j) with (S i + (j - i))%nat by lia.
  rewrite firstn_plus, map_app, fold_right_app.
  set (extra := map weight (firstn (j - i) (skipn (S i) (values temps)))).
  assert (List.length extra = (j - i)%nat) as Hlen.
  { unfold extra. rewrite length_map, length_firstn, length_skipn.
    unfold values. rewrite length_map. lia. }
  assert (Forall (fun w => lo <= w <= hi) extra) as Hex.
  { unfold extra. apply Forall_map. apply Forall_forall. intros x _. apply Hw. }
  rewrite <- Hlen. clear Hlen. generalize (map weight (firstn (S i) (values temps))).
  intros base.
  assert (forall l acc, fold_right Z.add acc l = fold_right Z.add 0 l + acc) as Hfold.
  { induction l as [|x r IH]; intros acc; simpl; [lia|]. rewrite IH. lia. }
  rewrite (Hfold base (fold_right Z.add 0 extra)).
  assert (lo * Z.of_nat (List.length extra) <= fold_right Z.add 0 extra
          <= hi * Z.of_nat (List.length extra)) as Hb.
  { clear - Hex. induction Hex as [|w r Hw _ IH]; [simpl; lia|].
    cbn [fold_right List.length]. rewrite Nat2Z.inj_succ. lia. }
  lia.
Qed.

Lemma chilling_hours_weight_range (x : float) : 0 <= chilling_hours_weight x <= 1.
Proof. unfold chilling_hours_weight. destruct (PrimFloat.ltb x 7.2); lia. Qed.

(** X3. The count [chilling_hours] returns starts at 0 or 1, never
    decreases, grows by at most one per entry and never exceeds the
    number of entries so far. *)
Theorem chilling_hours_never_decreases (df : DataFrame) (out : list string)
    (r : Series Z) (i j : nat) (ti tj : Timestamp) (ci cj : Z) :
  chilling_hours df = (out, Returns r) ->
  Z.of_nat (List.length r) < 2 ^ 63 ->
  (i <= j)%nat -> nth_error r i = Some (ti, ci) -> nth_error r j = Some (tj, cj) ->
  0 <= ci <= cj /\ cj - ci <= Z.of_nat (j - i) /\ cj <= Z.of_nat (S j).
Proof.
  intros E Hlen Hij Hi Hj.
  unfold chilling_hours in E.
  destruct (hourly_temps df) as [out' [temps | e]] eqn:Et; [|discriminate].
  simpl in E. rewrite app_nil_r in E.
  assert (r = cumsum_bool (lt 7.2 temps)) as Er by congruence.
  assert (List.length r = List.length temps) as Hl.
  { rewrite Er. unfold lt. rewrite length_cumsum_bool. apply length_smap. }
  assert (forall k t x, nth_error temps k = Some (t, x) ->
            nth_error r k = Some (t, running_sum chilling_hours_weight temps k)) as Hnth.
  { intros k t x Hk. rewrite Er. apply (cumsum_lt_running_sum temps k t x); [|exact Hk].
    rewrite <- Hl. exact Hlen. }
  assert (j < List.length temps)%nat as Hjt
    by (rewrite <- Hl; apply nth_error_Some; congruence).
  assert (i < List.length temps)%nat as Hit by lia.
  destruct (nth_error temps i) as [[ti' xi]|] eqn:Eti;
    [|apply nth_error_None in Eti; lia].
  destruct (nth_error temps j) as [[tj' xj]|] eqn:Etj;
    [|apply nth_error_None in Etj; lia].
  rewrite (Hnth i ti' xi Eti) in Hi. rewrite (Hnth j tj' xj Etj) in Hj.
  inversion Hi; inversion Hj; subst.
  pose proof (running_sum_grows chilling_hours_weight 0 1 temps i j
                chilling_hours_weight_range Hij Hjt) as Hg.
  pose proof (running_sum_grows chilling_hours_weight 0 1 temps 0 i
                chilling_hours_weight_range (Nat.le_0_l i) Hit) as Hg0.
  pose proof (running_sum_grows chilling_hours_weight 0 1 temps 0 j
                chilling_hours_weight_range (Nat.le_0_l j) Hjt) as Hgj.
  assert (0 <= running_sum chilling_hours_weight temps 0 <= 1) as H0.
  { unfold running_sum. destruct (values temps) as [|x l]; simpl; [lia|].
    pose proof (chilling_hours_weight_range x). lia. }
  rewrite Nat.sub_0_r in Hg0, Hgj. lia.
Qed.

(** The warning is printed exactly when the index is not hourly. *)
Lemma resampling_warning_iff_not_hourly (df : DataFrame) :
  (3 <= List.length df)%nat ->
  (hourly_cadence (index df) /\ stdout (hourly_temps df) = []) \/
  (~ hourly_cadence (index df) /\ stdout (hourly_temps df) = [reindex_warning]).
Proof.
  intros Hlen. unfold hourly_temps, infer_freq_is_H, index. rewrite length_map.
  apply Nat.ltb_ge in Hlen. rewrite Hlen. fold (index df).
  destruct (forallb (Z.eqb ns_per_hour) (deltas (index df))) eqn:Eh; simpl.
  - left. split; [apply deltas_hourly; exact Eh | reflexivity].
  - right. split.
    + intros Hh. apply deltas_hourly in Hh. congruence.
    + destruct (resample_bfill ns_per_hour (temp df)); reflexivity.
Qed.

Lemma stdout_bind_quiet {A B} (m : py A) (k : A -> py B) :
  (forall a, stdout (k a) = []) -> stdout (bind m k) = stdout m.
Proof.
  intros Hk. destruct m as [out [a | e]]; simpl; [|reflexivity].
  specialize (Hk a). destruct (k a) as [out' r]. simpl in *. subst out'.
  apply app_nil_r.
Qed.

(** X8. On an input of at least three entries whose index is not a
    regular hourly cadence, every hourly model (dynamic included)
    prints the resampling warning exactly once, whether or not the
    resampling then succeeds. *)
Theorem resampling_warning_when_not_hourly (df : DataFrame) :
  (3 <= List.length df)%nat -> ~ hourly_cadence (index df) ->
  stdout (chilling_hours df) = [reindex_warning] /\
  (forall fahrenheit_model, stdout (utah df fahrenheit_model) = [reindex_warning]) /\
  stdout (positive_chill_units df) = [reindex_warning] /\
  stdout (low_chill df) = [reindex_warning] /\
  stdout (north_carolina df) = [reindex_warning] /\
  stdout (dynamic df) = [reindex_warning].
Proof.
  intros Hlen Hnh.
  destruct (resampling_warning_iff_not_hourly df Hlen) as [[Hh _] | [_ Hw]];
    [contradiction|].
  unfold chilling_hours, utah, positive_chill_units, low_chill, north_carolina, dynamic.
  repeat split; try intros [|]; rewrite stdout_bind_quiet by reflexivity; exact Hw.
Qed.

Lemma sorted_Permutation_unique {V} (l l' : Series V) :
  StronglySorted by_time l -> StronglySorted by_time l' ->
  NoDup (index l) -> Permutation l l' -> l = l'.
Proof.
  revert l'. induction l as [|a r IH]; intros l' Hs Hs' Hnd Hp.
  - apply Permutation_nil in Hp. subst. reflexivity.
  - destruct l' as [|a' r'].
    + apply Permutation_sym, Permutation_nil in Hp. discriminate.
    + apply StronglySorted_inv in Hs. destruct Hs as [Hr Ha].
      apply StronglySorted_inv in Hs'. destruct Hs' as [Hr' Ha'].
      inversion Hnd as [|? ? Hn Hndr]; subst.
      assert (a = a') as ->.
      { assert (In a (a' :: r')) as Hin by (apply (Permutation_in _ Hp); left; reflexivity).
        assert (In a' (a :: r)) as Hin'
          by (apply (Permutation_in _ (Permutation_sym Hp)); left; reflexivity).
        destruct Hin as [E | Hin]; [symmetry; exact E|].
        destruct Hin' as [E | Hin']; [exact E|].
        exfalso. rewrite Forall_forall in Ha, Ha'.
        specialize (Ha a' Hin'). specialize (Ha' a Hin). unfold by_time in *.
        apply Hn. replace (fst a) with (fst a') by lia.
        unfold index. apply in_map. exact Hin'. }
      f_equal. apply IH; try assumption.
      apply (Permutation_cons_inv Hp).
Qed.

Lemma sort_index_Permutation_eq {V} (s s' : Series V) :
  NoDup (index s) -> Permutation s s' -> sort_index s = sort_index s'.
Proof.
  intros Hnd Hp. apply sorted_Permutation_unique.
  - apply sort_index_sorted.
  - apply sort_index_sorted.
  - apply (Permutation_NoDup (l := index s)); [|exact Hnd].
    apply Permutation_map. symmetry. apply sort_index_Permutation.
  - rewrite (sort_index_Permutation s), (sort_index_Permutation s'). exact Hp.
Qed.

(** X11. [landsberg] does not depend on the order of the rows: on an
    input with distinct timestamps, any reordering of the rows gives
    the same result. *)
Theorem landsberg_ignores_row_order (df df' : DataFrame) (base_temp : float) :
  NoDup (index df) -> Permutation df df' ->
  landsberg df' base_temp = landsberg df base_temp.
Proof.
  intros Hnd Hp. unfold landsberg, resample_bfill, temp.
  rewrite (sort_index_Permutation_eq df df' Hnd Hp). reflexivity.
Qed.

(** X10. On a non-empty input with distinct timestamps whose days lie
    inside the range of a Timestamp, whatever the base temperature,
    [landsberg] prints nothing and returns one entry per calendar day
    from the day of the earliest reading to the day of the latest, days
    without a reading included. *)
Theorem landsberg_one_entry_per_day (df : DataFrame) (base_temp : float) :
  df <> [] -> NoDup (index df) -> resample_in_bounds ns_per_day (index df) ->
  exists r tmin tmax,
    landsberg df base_temp = ([], Returns r) /\
    In tmin (index df) /\ In tmax (index df) /\
    (forall t, In t (index df) -> tmin <= t <= tmax) /\
    index r = date_range (floor_to ns_per_day tmin) (floor_to ns_per_day tmax) ns_per_day /\
    Z.of_nat (List.length r) = tmax / ns_per_day - tmin / ns_per_day + 1.
Proof.
  intros Hne Hnd Hbounds.
  destruct (resample_bfill_next_reading ns_per_day df) as
    [daily [tmin [tmax [Er [Hmin [Hmax [Hb [Hi _]]]]]]]];
    [reflexivity | exact Hne | exact Hnd | exact Hbounds |].
  unfold landsberg, temp. rewrite Er. simpl.
  eexists. exists tmin, tmax. split; [reflexivity|].
  assert (index (smap (fun x => PrimFloat.div x base_temp) (cumsum_float daily))
          = index daily) as Eidx
    by (rewrite index_smap; apply cumsum_float_index).
  repeat split; try assumption; try (apply Hb; assumption).
  - rewrite Eidx. exact Hi.
  - rewrite <- (length_map fst). fold (index (smap (fun x => PrimFloat.div x base_temp)
                                            (cumsum_float daily))).
    rewrite Eidx, Hi. unfold date_range. rewrite length_map, length_seq.
    specialize (Hb tmax Hmax).
    assert (tmin / ns_per_day <= tmax / ns_per_day)
      by (apply Z.div_le_mono; [reflexivity | lia]).
    unfold floor_to. rewrite !Z.mod_eq by (unfold ns_per_day; lia).
    replace (tmax - (tmax - ns_per_day * (tmax / ns_per_day))
             - (tmin - (tmin - ns_per_day * (tmin / ns_per_day))))
      with ((tmax / ns_per_day - tmin / ns_per_day) * ns_per_day) by lia.
    rewrite Z.div_mul by (unfold ns_per_day; lia). lia.
Qed.

(** X9. On an input of at least three entries with distinct timestamps,
    not on an hourly cadence, whose hourly bins lie inside the range of
    a Timestamp, the opening block prints the warning once and hands
    over one value per hour, from the hour of the earliest reading to
    the hour of the latest; the value at an hour is the value of the
    earliest reading at or after it. *)
Theorem hourly_temps_backfills_next_reading (df : DataFrame) :
  (3 <= List.length df)%nat -> NoDup (index df) -> ~ hourly_cadence (index df) ->
  resample_in_bounds ns_per_hour (index df) ->
  exists temps tmin tmax,
    hourly_temps df = ([reindex_warning], Returns temps) /\
    In tmin (index df) /\ In tmax (index df) /\
    (forall t, In t (index df) -> tmin <= t <= tmax) /\
    index temps
    = date_range (floor_to ns_per_hour tmin) (floor_to ns_per_hour tmax) ns_per_hour /\
    forall l v, In (l, v) temps ->
      exists t, In (t, v) df /\ l <= t /\
                forall t', In t' (index df) -> l <= t' -> t <= t'.
Proof.
  intros Hlen Hnd Hnh Hbounds.
  assert (df <> []) as Hne by (destruct df; simpl in Hlen; [lia | discriminate]).
  destruct (resample_bfill_next_reading ns_per_hour df) as
    [temps [tmin [tmax [Er H]]]];
    [reflexivity | exact Hne | exact Hnd | exact Hbounds |].
  exists temps, tmin, tmax. split; [|exact H].
  unfold hourly_temps, infer_freq_is_H, index. rewrite length_map.
  apply Nat.ltb_ge in Hlen. rewrite Hlen. fold (index df).
  destruct (forallb (Z.eqb ns_per_hour) (deltas (index df))) eqn:Eh.
  - exfalso. apply Hnh. apply deltas_hourly. exact Eh.
  - simpl. unfold temp. rewrite Er. reflexivity.
Qed.

Lemma cadence_nth (step : Z) (idx : list Timestamp) (t0 : Timestamp) :
  (forall i a b, nth_error idx i = Some a -> nth_error idx (S i) = Some b -> b = a + step) ->
  nth_error idx 0 = Some t0 ->
  forall k, (k < List.length idx)%nat -> nth_error idx k = Some (t0 + Z.of_nat k * step).
Proof.
  intros Hc H0 k. induction k as [|k IH]; intros Hk.
  - rewrite H0. f_equal. lia.
  - specialize (IH ltac:(lia)).
    destruct (nth_error idx (S k)) as [b|] eqn:Eb; [|apply nth_error_None in Eb; lia].
    rewrite (Hc k _ b IH Eb). f_equal. lia.
Qed.

Lemma cadence_is_date_range (step : Z) (idx : list Timestamp) (t0 : Timestamp) :
  0 < step ->
  (forall i a b, nth_error idx i = Some a -> nth_error idx (S i) = Some b -> b = a + step) ->
  nth_error idx 0 = Some t0 ->
  idx = date_range t0 (t0 + (Z.of_nat (List.length idx) - 1) * step) step.
Proof.
  intros Hs Hc H0.
  assert (0 < List.length idx)%nat as Hpos by (apply nth_error_Some; congruence).
  unfold date_range.
  replace (t0 + (Z.of_nat (List.length idx) - 1) * step - t0)
    with ((Z.of_nat (List.length idx) - 1) * step) by lia.
  rewrite Z.div_mul by lia.
  replace (S (Z.to_nat (Z.of_nat (List.length idx) - 1))) with (List.length idx) by lia.
  apply nth_error_ext. intros k.
  destruct (Nat.lt_ge_cases k (List.length idx)) as [Hk | Hk].
  - rewrite (cadence_nth step idx t0 Hc H0 k Hk).
    rewrite nth_error_map, nth_error_nth' with (d := 0%nat) by (rewrite length_seq; exact Hk).
    rewrite seq_nth by exact Hk. reflexivity.
  - rewrite (proj2 (nth_error_None idx k)) by exact Hk.
    symmetry. apply nth_error_None. rewrite length_map, length_seq. exact Hk.
Qed.

Lemma same_index_incl_eq {V} (r s : Series V) :
  index r = index s -> NoDup (index s) -> incl r s -> r = s.
Proof.
  revert s. induction r as [|[t v] r IH]; intros [|[t' v'] s] Hi Hnd Hin;
    simpl in *; try discriminate; [reflexivity|].
  inversion Hi as [[Et Er]]. subst t'. inversion Hnd as [|? ? Hn Hnds]; subst.
  assert (v = v') as ->.
  { destruct (Hin (t, v) (or_introl eq_refl)) as [E | Hs]; [congruence|].
    exfalso. apply Hn. change t with (fst (t, v)). apply in_map. exact Hs. }
  f_equal. apply IH; [exact Er | exact Hnds|].
  intros e He. destruct (Hin e (or_intror He)) as [E | Hs]; [|exact Hs].
  exfalso. apply Hn. rewrite <- Er. subst e. change t with (fst (t, v')).
  apply in_map. exact He.
Qed.

Lemma cadence_NoDup (step : Z) (idx : list Timestamp) :
  0 < step ->
  (forall i a b, nth_error idx i = Some a -> nth_error idx (S i) = Some b -> b = a + step) ->
  NoDup idx.
Proof.
  intros Hs Hc. destruct idx as [|t0 r]; [constructor|].
  apply NoDup_nth_error. intros i j Hi E.
  assert (j < List.length (t0 :: r))%nat as Hj
    by (apply nth_error_Some; rewrite <- E; apply nth_error_Some; exact Hi).
  rewrite (cadence_nth step (t0 :: r) t0 Hc eq_refl i Hi) in E.
  rewrite (cadence_nth step (t0 :: r) t0 Hc eq_refl j Hj) in E.
  inversion E. nia.
Qed.

(** X12. On an input with one reading per day, at midnight, on
    consecutive days inside the range of a Timestamp, [landsberg] keeps
    the index and returns the running sum of the readings themselves,
    divided by the base temperature. *)
Theorem landsberg_on_daily_grid (df : DataFrame) (base_temp : float) :
  daily_midnight (index df) -> resample_in_bounds ns_per_day (index df) ->
  landsberg df base_temp
  = ([], Returns (smap (fun x => PrimFloat.div x base_temp) (cumsum_float df))).
Proof.
  intros [Hmid Hc] Hbounds. destruct df as [|[t0 v0] rest] eqn:Edf; [reflexivity|].
  rewrite <- Edf in *.
  assert (0 < ns_per_day) as Hday by reflexivity.
  assert (df <> []) as Hne by (rewrite Edf; discriminate).
  assert (NoDup (index df)) as Hnd by (apply (cadence_NoDup ns_per_day); assumption).
  assert (nth_error (index df) 0 = Some t0) as H0 by (rewrite Edf; reflexivity).
  destruct (resample_bfill_next_reading ns_per_day df Hday Hne Hnd Hbounds) as
    [daily [tmin [tmax [Er [Hmin [Hmax [Hb [Hi Hv]]]]]]]].
  assert (forall t, In t (index df) ->
            exists k, (k < List.length (index df))%nat /\ t = t0 + Z.of_nat k * ns_per_day)
    as Hform.
  { intros t Ht. apply In_nth_error in Ht. destruct Ht as [k Hk].
    assert (k < List.length (index df))%nat as Hlt by (apply nth_error_Some; congruence).
    exists k. split; [exact Hlt|].
    rewrite (cadence_nth ns_per_day (index df) t0 Hc H0 k Hlt) in Hk. congruence. }
  assert (tmin = t0) as ->.
  { destruct (Hform tmin Hmin) as [k [_ ->]].
    assert (In t0 (index df)) as Ht0 by (eapply nth_error_In; exact H0).
    specialize (Hb t0 Ht0). lia. }
  set (n := List.length (index df)) in *.
  assert (0 < n)%nat as Hn by (apply nth_error_Some; congruence).
  assert (tmax = t0 + (Z.of_nat n - 1) * ns_per_day) as ->.
  { destruct (Hform tmax Hmax) as [k [Hk ->]].
    assert (In (t0 + Z.of_nat (n - 1) * ns_per_day) (index df)) as Hl.
    { eapply nth_error_In. apply (cadence_nth ns_per_day (index df) t0 Hc H0). lia. }
    specialize (Hb _ Hl). f_equal. nia. }
  assert (index daily = index df) as Eidx.
  { rewrite Hi. unfold floor_to.
    rewrite (Hmid t0) by (eapply nth_error_In; exact H0).
    rewrite (Hmid _ Hmax). rewrite !Z.sub_0_r.
    symmetry. apply (cadence_is_date_range ns_per_day (index df) t0 Hday Hc H0). }
  assert (daily = df) as ->.
  { apply same_index_incl_eq; [exact Eidx | exact Hnd|].
    intros [l v] Hin. destruct (Hv l v Hin) as [t [Hin' [Hle Hnext]]].
    assert (In l (index df)) as Hl.
    { rewrite <- Eidx. change l with (fst (l, v)). apply in_map. exact Hin. }
    assert (t = l) as ->.
    { specialize (Hnext l Hl ltac:(lia)). lia. }
    exact Hin'. }
  unfold landsberg, temp. rewrite Er. reflexivity.
Qed.

Lemma is_leap_cases (y : Z) :
  (is_leap y = true /\ (y mod 4 = 0 /\ y mod 100 <> 0 \/ y mod 400 = 0)) \/
  (is_leap y = false /\ (y mod 4 <> 0 \/ y mod 100 = 0) /\ y mod 400 <> 0).
Proof.
  unfold is_leap.
  destruct (Z.eqb_spec (y mod 4) 0), (Z.eqb_spec (y mod 100) 0), (Z.eqb_spec (y mod 400) 0);
    simpl; intuition lia.
Qed.

Lemma year_and_doy_spec (d : Z) :
  days_before_year (fst (year_and_doy d)) + snd (year_and_doy d) - 1 = d /\
  1 <= snd (year_and_doy d)
    <= 365 + (if is_leap (fst (year_and_doy d)) then 1 else 0).
Proof.
  unfold year_and_doy, days_before_year.
  set (z := d + 719468).
  assert (0 <= z mod 146097 < 146097) as Hd by (apply Z.mod_pos_bound; lia).
  pose proof (march_year_range _ Hd) as Hy. cbv zeta in Hy.
  set (doe := z mod 146097) in *.
  set (yoe := (doe - doe / 1460 + doe / 36524 - doe / 146096) / 365) in *.
  set (era := z / 146097).
  assert (z = 146097 * era + doe) as Ez by (subst era doe; apply Z.div_mod; lia).
  set (doy := doe - (365 * yoe + yoe / 4 - yoe / 100)) in *.
  destruct (doy <? 306) eqn:E; cbn [fst snd];
    [apply Z.ltb_lt in E | apply Z.ltb_ge in E].
  - destruct (is_leap_cases (yoe + era * 400)) as [[-> Hl] | [-> Hl]].
    + split; [|lia]. subst doy. Z.div_mod_to_equations; lia.
    + split; [|lia]. subst doy. Z.div_mod_to_equations; lia.
  - destruct (is_leap_cases (yoe + era * 400 + 1)) as [[-> Hl] | [-> Hl]].
    + split; [|lia]. subst doy. Z.div_mod_to_equations; lia.
    + split; [|lia]. subst doy. Z.div_mod_to_equations; lia.
Qed.

Lemma days_before_year_next (y : Z) :
  days_before_year (y + 1) = days_before_year y + 365 + (if is_leap y then 1 else 0).
Proof.
  unfold days_before_year.
  destruct (is_leap_cases y) as [[-> Hl] | [-> Hl]]; Z.div_mod_to_equations; lia.
Qed.

Lemma days_before_year_mono (y1 y2 : Z) :
  y1 <= y2 -> days_before_year y1 + 365 * (y2 - y1) <= days_before_year y2.
Proof.
  intros Hy. unfold days_before_year. Z.div_mod_to_equations. lia.
Qed.

Lemma year_and_doy_mono (d1 d2 : Z) :
  d1 <= d2 ->
  fst (year_and_doy d1) < fst (year_and_doy d2) \/
  (fst (year_and_doy d1) = fst (year_and_doy d2) /\
   snd (year_and_doy d1) <= snd (year_and_doy d2)).
Proof.
  intros Hd.
  destruct (year_and_doy_spec d1) as [E1 B1]. destruct (year_and_doy_spec d2) as [E2 B2].
  set (y1 := fst (year_and_doy d1)) in *. set (n1 := snd (year_and_doy d1)) in *.
  set (y2 := fst (year_and_doy d2)) in *. set (n2 := snd (year_and_doy d2)) in *.
  destruct (Z.lt_trichotomy y1 y2) as [Hlt | [Heq | Hgt]].
  - left. exact Hlt.
  - right. split; [exact Heq|]. rewrite Heq in E1. lia.
  - exfalso.
    pose proof (days_before_year_next y2) as Hn.
    pose proof (days_before_year_mono (y2 + 1) y1 ltac:(lia)) as Hm.
    lia.
Qed.

Lemma anchor_in_year_range (a : reset_date_t) :
  anchor_in_year a -> 1 <= start_doy a <= 366.
Proof.
  destruct a as [n | d]; simpl; [auto | apply tm_yday_range].
Qed.

Lemma dormancy_year_in_year (n : Z) (t : Timestamp) :
  1 <= n <= 366 -> in_int64 t ->
  dormancy_year n t = if dayofyear t <? n then year t - 1 else year t.
Proof.
  intros Hn Ht. rewrite dormancy_year_bucket_key by (try assumption; lia).
  unfold bucket_key. pose proof (dayofyear_range t) as Hd.
  destruct (dayofyear t <? n) eqn:E; [apply Z.ltb_lt in E | apply Z.ltb_ge in E].
  - Z.div_mod_to_equations. lia.
  - rewrite Z.div_small by lia. lia.
Qed.


(** X16. For an anchor that names a day of the year, the grouping key
    never decreases with time: the buckets of a Series in time order
    are runs of consecutive entries. *)
Theorem dormancy_year_never_decreases (a : reset_date_t) (t1 t2 : Timestamp) :
  anchor_in_year a -> in_int64 t1 -> in_int64 t2 -> t1 <= t2 ->
  dormancy_year (start_doy a) t1 <= dormancy_year (start_doy a) t2.
Proof.
  intros Ha H1 H2 Hle. pose proof (anchor_in_year_range a Ha) as Hn.
  rewrite !dormancy_year_in_year by assumption.
  assert (t1 / ns_per_day <= t2 / ns_per_day) as Hd
    by (apply Z.div_le_mono; [reflexivity | exact Hle]).
  unfold year, dayofyear.
  destruct (year_and_doy_mono _ _ Hd) as [Hy | [Hy Hdoy]].
  - destruct (_ <? _), (_ <? _); lia.
  - rewrite Hy.
    destruct (snd (year_and_doy (t1 / ns_per_day)) <? start_doy a) eqn:E1,
             (snd (year_and_doy (t2 / ns_per_day)) <? start_doy a) eqn:E2; lia.
Qed.

(** X17. For an anchor that names a day of the year, two timestamps
    with the same grouping key lie at most 365 calendar days apart: no
    bucket is longer than 366 days. *)
Theorem same_dormancy_year_within_366_days (a : reset_date_t) (t1 t2 : Timestamp) :
  anchor_in_year a -> in_int64 t1 -> in_int64 t2 -> t1 <= t2 ->
  dormancy_year (start_doy a) t1 = dormancy_year (start_doy a) t2 ->
  t2 / ns_per_day - t1 / ns_per_day <= 365.
Proof.
  intros Ha H1 H2 Hle. pose proof (anchor_in_year_range a Ha) as Hn.
  rewrite !dormancy_year_in_year by assumption.
  unfold year, dayofyear.
  destruct (year_and_doy_spec (t1 / ns_per_day)) as [E1 B1].
  destruct (year_and_doy_spec (t2 / ns_per_day)) as [E2 B2].
  set (y1 := fst (year_and_doy (t1 / ns_per_day))) in *.
  set (n1 := snd (year_and_doy (t1 / ns_per_day))) in *.
  set (y2 := fst (year_and_doy (t2 / ns_per_day))) in *.
  set (n2 := snd (year_and_doy (t2 / ns_per_day))) in *.
  rewrite <- E1, <- E2.
  destruct (n1 <? start_doy a) eqn:L1, (n2 <? start_doy a) eqn:L2; intros Hk;
    try apply Z.ltb_lt in L1; try apply Z.ltb_ge in L1;
    try apply Z.ltb_lt in L2; try apply Z.ltb_ge in L2.
  - assert (y1 = y2) as -> by lia. destruct (is_leap y2); lia.
  - assert (y1 = y2 + 1) as -> by lia.
    pose proof (days_before_year_next y2). destruct (is_leap y2), (is_leap (y2 + 1)); lia.
  - assert (y2 = y1 + 1) as -> by lia.
    pose proof (days_before_year_next y1). destruct (is_leap y1), (is_leap (y1 + 1)); lia.
  - assert (y1 = y2) as -> by lia. destruct (is_leap y2); lia.
Qed.

Lemma find_map_key {V} (p : Timestamp -> bool) (g : Timestamp * V -> Timestamp * V)
    (s : Series V) :
  (forall e, fst (g e) = fst e) ->
  find (fun e => p (fst e)) (map g s) = option_map g (find (fun e => p (fst e)) s).
Proof.
  intros Hg. induction s as [|e r IH]; simpl; [reflexivity|].
  rewrite Hg. destruct (p (fst e)); [reflexivity | exact IH].
Qed.

Lemma bucket_first_smap {V} (key : Timestamp -> Z) (f : V -> V) (s : Series V) (t : Timestamp) :
  bucket_first key (smap f s) t = option_map f (bucket_first key s t).
Proof.
  unfold bucket_first, smap.
  rewrite (find_map_key (fun t' => key t' =? key t) (fun e => (fst e, f (snd e))))
    by reflexivity.
  destruct (find _ s); reflexivity.
Qed.

(** X13. Subtracting one constant from every value of a Series (with
    distinct timestamps, of a dtype with exact subtraction) does not
    change what [reset_chill_hours] returns. *)
Theorem reset_chill_hours_ignores_offset {V : Type} `{ExactDtype V}
    (s : Series V) (a : reset_date_t) (c : V) :
  NoDup (index s) ->
  reset_chill_hours (smap (fun v => dsub v c) s) a = reset_chill_hours s a.
Proof.
  intros Hnd.
  rewrite (reset_chill_hours_closed_form s a Hnd).
  rewrite reset_chill_hours_closed_form by (rewrite index_smap; exact Hnd).
  f_equal. unfold smap. rewrite map_map. apply map_ext. intros [t v]. cbn [fst snd].
  f_equal.
  change (map (fun e : Timestamp * V => (fst e, dsub (snd e) c)) s)
    with (smap (fun v => dsub v c) s).
  rewrite bucket_first_smap.
  destruct (bucket_first _ s t) as [v0|]; [|reflexivity].
  simpl. f_equal. apply dsub_cancel.
Qed.

Lemma reset_chill_hours_rebased {V : Type} `{Dtype V} (s : Series V) (a : reset_date_t) :
  NoDup (index s) ->
  reset_chill_hours s a = Returns (smap Some (rebased (dormancy_year (start_doy a)) s)).
Proof.
  intros Hnd. rewrite (reset_chill_hours_closed_form s a Hnd). f_equal.
  unfold smap, rebased. rewrite map_map. apply map_ext_in. intros [t v] Hin. cbn [fst snd].
  destruct (bucket_first_Some (dormancy_year (start_doy a)) s t v Hin) as [e0 [rest [_ ->]]].
  reflexivity.
Qed.

(** X14. Resetting twice at the same anchor is resetting once: the
    Series [reset_chill_hours] returns is a Series it returns unchanged
    (distinct timestamps, exact subtraction). *)
Theorem reset_chill_hours_idempotent {V : Type} `{ExactDtype V}
    (s : Series V) (a : reset_date_t) :
  NoDup (index s) ->
  exists s',
    reset_chill_hours s a = Returns (smap Some s') /\
    reset_chill_hours s' a = Returns (smap Some s').
Proof.
  intros Hnd. set (key := dormancy_year (start_doy a)).
  exists (rebased key s). split; [apply reset_chill_hours_rebased; exact Hnd|].
  assert (index (rebased key s) = index s) as Eidx.
  { unfold rebased, index. rewrite map_map. reflexivity. }
  rewrite reset_chill_hours_rebased by (rewrite Eidx; exact Hnd).
  fold key. f_equal. f_equal.
  unfold rebased at 1. unfold rebased at 2. rewrite map_map.
  apply map_ext_in. intros [t v] Hin. cbn [fst snd]. f_equal.
  destruct (bucket_first_Some key s t v Hin) as [e0 [rest [Eb Ef]]].
  rewrite Ef.
  assert (bucket_first key (rebased key s) t = Some (dsub (snd e0) (snd e0))) as ->.
  { unfold bucket_first, rebased.
    rewrite (find_map_key (fun t' => key t' =? key t)
               (fun e => (fst e, match bucket_first key s (fst e) with
                                 | Some v0 => dsub (snd e) v0
                                 | None => snd e
                                 end))) by reflexivity.
    unfold bucket_first in Ef.
    destruct (find (fun e => key (fst e) =? key t) s) as [e1|] eqn:Efind; [|discriminate].
    simpl in Ef. inversion Ef as [E1]. simpl. f_equal.
    pose proof (find_some _ _ Efind) as [_ Hk]. apply Z.eqb_eq in Hk.
    assert (bucket_first key s (fst e1) = Some (snd e1)) as ->.
    { unfold bucket_first. rewrite Hk. rewrite Efind. reflexivity. }
    rewrite E1. reflexivity. }
  apply dsub_cancel.
Qed.

(** ** Resampling at the end of the range of a Timestamp *)

(** The end of the last bin is past [Timestamp.max]: the resampling
    raises. *)
Lemma resample_bfill_raises (freq : Z) (s : Series float) (tmax : Timestamp) :
  In tmax (index s) -> (forall t, In t (index s) -> t <= tmax) ->
  Timestamp_max < floor_to freq tmax + freq ->
  resample_bfill freq s = Raises OutOfBoundsDatetime.
Proof.
  intros Hin Hmax Hend. unfold resample_bfill.
  pose proof (sort_index_Permutation s) as Hperm.
  pose proof (sort_index_sorted s) as Hsorted.
  destruct (sort_index s) as [|[t0 v0] rest] eqn:Es.
  - apply Permutation_nil in Hperm. subst s. contradiction.
  - set (sorted := (t0, v0) :: rest) in *.
    destruct (sorted_last_max sorted t0 Hsorted) as [Hlast_in Hlast_max];
      [discriminate|].
    assert (forall t, In t (index s) <-> In t (index sorted)) as Hidx.
    { intros t. split; apply Permutation_in; [symmetry|];
        apply Permutation_map; exact Hperm. }
    assert (last (index sorted) t0 = tmax) as ->.
    { apply Z.le_antisymm.
      - apply Hmax. apply Hidx. exact Hlast_in.
      - apply Hidx in Hin. unfold index in Hin. apply in_map_iff in Hin.
        destruct Hin as [e [<- He]]. apply Hlast_max. exact He. }
    apply Z.ltb_lt in Hend. rewrite Hend, orb_true_r. reflexivity.
Qed.

(** X18. At the end of the range the daily resampling raises: on an
    input with distinct timestamps whose days begin inside the range of
    a Timestamp, [landsberg] raises OutOfBoundsDatetime, whatever the
    base temperature, when the day of the latest reading ends after
    [Timestamp.max] (a reading on 11 April 2262). *)
Theorem landsberg_raises_past_last_day
    (df : DataFrame) (base_temp : float) (tmax : Timestamp) :
  NoDup (index df) -> In tmax (index df) ->
  (forall t, In t (index df) -> Timestamp_min <= floor_to ns_per_day t /\ t <= tmax) ->
  Timestamp_max < floor_to ns_per_day tmax + ns_per_day ->
  landsberg df base_temp = ([], Raises OutOfBoundsDatetime).
Proof.
  intros _ Hin Hall Hend. unfold landsberg, temp.
  rewrite (resample_bfill_raises ns_per_day df tmax Hin); [reflexivity | | exact Hend].
  intros t Ht. apply Hall. exact Ht.
Qed.

(** X19. The same in the hourly models: on an input of at least three
    entries with distinct timestamps, not on an hourly cadence, whose
    days begin inside the range of a Timestamp, every hourly model
    prints the warning and raises OutOfBoundsDatetime when the hour of
    the latest reading ends after [Timestamp.max] (a reading in the
    last hour of 11 April 2262). *)
Theorem hourly_models_raise_past_last_hour (df : DataFrame) (tmax : Timestamp) :
  (3 <= List.length df)%nat -> NoDup (index df) -> ~ hourly_cadence (index df) ->
  In tmax (index df) ->
  (forall t, In t (index df) -> Timestamp_min <= floor_to ns_per_day t /\ t <= tmax) ->
  Timestamp_max < floor_to ns_per_hour tmax + ns_per_hour ->
  chilling_hours df = ([reindex_warning], Raises OutOfBoundsDatetime) /\
  (forall fahrenheit_model,
     utah df fahrenheit_model = ([reindex_warning], Raises OutOfBoundsDatetime)) /\
  positive_chill_units df = ([reindex_warning], Raises OutOfBoundsDatetime) /\
  low_chill df = ([reindex_warning], Raises OutOfBoundsDatetime) /\
  north_carolina df = ([reindex_warning], Raises OutOfBoundsDatetime) /\
  dynamic df = ([reindex_warning], Raises OutOfBoundsDatetime).
Proof.
  intros Hlen _ Hnh Hin Hall Hend.
  assert (hourly_temps df = ([reindex_warning], Raises OutOfBoundsDatetime)) as E.
  { unfold hourly_temps, infer_freq_is_H, index. rewrite length_map.
    apply Nat.ltb_ge in Hlen. rewrite Hlen. fold (index df).
    destruct (forallb (Z.eqb ns_per_hour) (deltas (index df))) eqn:Eh.
    - exfalso. apply Hnh. apply deltas_hourly. exact Eh.
    - simpl. unfold temp.
      rewrite (resample_bfill_raises ns_per_hour df tmax Hin); [reflexivity | | exact Hend].
      intros t Ht. apply Hall. exact Ht. }
  unfold chilling_hours, utah, positive_chill_units, low_chill, north_carolina, dynamic.
  rewrite E. repeat split.
Qed.

(** ** The further properties on concrete inputs *)

Lemma five_hours_hourly : hourly_temps five_hours = ([], Returns five_hours).
Proof. vm_compute. reflexivity. Qed.

Lemma uneven_morning_not_hourly : ~ hourly_cadence (index uneven_morning).
Proof. intros Hh. apply deltas_hourly in Hh. vm_compute in Hh. discriminate. Qed.

Lemma uneven_morning_NoDup : NoDup (index uneven_morning).
Proof. apply is_unique_NoDup. reflexivity. Qed.

Lemma three_days_NoDup : NoDup (index three_days).
Proof. apply is_unique_NoDup. reflexivity. Qed.

Lemma hourly_models_keep_index_witness :
  hourly_temps five_hours = ([], Returns five_hours) /\
  (exists r, chilling_hours five_hours = ([], Returns r) /\ index r = index five_hours) /\
  (forall fahrenheit_model,
     exists r, utah five_hours fahrenheit_model = ([], Returns r) /\
               index r = index five_hours) /\
  (exists r, positive_chill_units five_hours = ([], Returns r) /\
             index r = index five_hours) /\
  (exists r, low_chill five_hours = ([], Returns r) /\ index r = index five_hours) /\
  (exists r, north_carolina five_hours = ([], Returns r) /\ index r = index five_hours).
Proof.
  exact (conj five_hours_hourly
           (hourly_models_keep_index five_hours [] five_hours five_hours_hourly)).
Defined.

Lemma chilling_hours_running_sum_witness :
  hourly_temps five_hours = ([], Returns five_hours) /\
  Z.of_nat (List.length five_hours) < 2 ^ 63 /\
  exists r,
    chilling_hours five_hours = ([], Returns r) /\
    List.length r = List.length five_hours /\
    forall i t x, nth_error five_hours i = Some (t, x) ->
      nth_error r i = Some (t, running_sum chilling_hours_weight five_hours i).
Proof.
  assert (Z.of_nat (List.length five_hours) < 2 ^ 63) as Hlen by (vm_compute; reflexivity).
  exact (conj five_hours_hourly (conj Hlen
           (chilling_hours_running_sum five_hours [] five_hours five_hours_hourly Hlen))).
Defined.

Lemma chilling_hours_never_decreases_witness :
  chilling_hours five_hours
  = ([], Returns (hourly_from (at_date 2020 1 1 0) [0; 1; 1; 2; 2])) /\
  0 <= 1 <= 2 /\ 2 - 1 <= Z.of_nat (3 - 1) /\ 2 <= Z.of_nat 4.
Proof.
  assert (chilling_hours five_hours
          = ([], Returns (hourly_from (at_date 2020 1 1 0) [0; 1; 1; 2; 2]))) as E
    by (vm_compute; reflexivity).
  split; [exact E|].
  apply (chilling_hours_never_decreases five_hours []
           (hourly_from (at_date 2020 1 1 0) [0; 1; 1; 2; 2]) 1 3
           (at_date 2020 1 1 1) (at_date 2020 1 1 3) 1 2 E).
  - vm_compute. reflexivity.
  - lia.
  - vm_compute. reflexivity.
  - vm_compute. reflexivity.
Defined.

Lemma low_chill_running_sum_witness :
  hourly_temps five_hours = ([], Returns five_hours) /\
  Z.of_nat (List.length five_hours) < 2 ^ 63 /\
  exists r,
    low_chill five_hours = ([], Returns r) /\
    List.length r = List.length five_hours /\
    forall i t x, nth_error five_hours i = Some (t, x) ->
      nth_error r i = Some (t, running_sum low_chill_weight five_hours i).
Proof.
  assert (Z.of_nat (List.length five_hours) < 2 ^ 63) as Hlen by (vm_compute; reflexivity).
  exact (conj five_hours_hourly (conj Hlen
           (low_chill_running_sum five_hours [] five_hours five_hours_hourly Hlen))).
Defined.

Lemma north_carolina_running_sum_witness :
  hourly_temps five_hours = ([], Returns five_hours) /\
  Z.of_nat (List.length five_hours) < 2 ^ 62 /\
  exists r,
    north_carolina five_hours = ([], Returns r) /\
    List.length r = List.length five_hours /\
    forall i t x, nth_error five_hours i = Some (t, x) ->
      nth_error r i = Some (t, running_sum north_carolina_weight five_hours i).
Proof.
  assert (Z.of_nat (List.length five_hours) < 2 ^ 62) as Hlen by (vm_compute; reflexivity).
  exact (conj five_hours_hourly (conj Hlen
           (north_carolina_running_sum five_hours [] five_hours five_hours_hourly Hlen))).
Defined.

Lemma utah_is_positive_chill_units_below_15_9_witness :
  Forall (fun x => PrimFloat.ltb 15.9 x = false) (values five_hours) /\
  utah five_hours false = positive_chill_units five_hours.
Proof.
  assert (Forall (fun x => PrimFloat.ltb 15.9 x = false) (values five_hours)) as Hcold
    by (repeat constructor).
  exact (conj Hcold (utah_is_positive_chill_units_below_15_9 five_hours Hcold)).
Defined.

Lemma resampling_warning_when_not_hourly_witness :
  (3 <= List.length uneven_morning)%nat /\ ~ hourly_cadence (index uneven_morning) /\
  stdout (chilling_hours uneven_morning) = [reindex_warning] /\
  (forall fahrenheit_model,
     stdout (utah uneven_morning fahrenheit_model) = [reindex_warning]) /\
  stdout (positive_chill_units uneven_morning) = [reindex_warning] /\
  stdout (low_chill uneven_morning) = [reindex_warning] /\
  stdout (north_carolina uneven_morning) = [reindex_warning] /\
  stdout (dynamic uneven_morning) = [reindex_warning].
Proof.
  assert (3 <= List.length uneven_morning)%nat as Hlen by (simpl; lia).
  exact (conj Hlen (conj uneven_morning_not_hourly
           (resampling_warning_when_not_hourly uneven_morning Hlen
              uneven_morning_not_hourly))).
Defined.

Lemma hourly_temps_backfills_next_reading_witness :
  (3 <= List.length uneven_morning)%nat /\ NoDup (index uneven_morning) /\
  ~ hourly_cadence (index uneven_morning) /\
  resample_in_bounds ns_per_hour (index uneven_morning) /\
  exists temps tmin tmax,
    hourly_temps uneven_morning = ([reindex_warning], Returns temps) /\
    In tmin (index uneven_morning) /\ In tmax (index uneven_morning) /\
    (forall t, In t (index uneven_morning) -> tmin <= t <= tmax) /\
    index temps
    = date_range (floor_to ns_per_hour tmin) (floor_to ns_per_hour tmax) ns_per_hour /\
    forall l v, In (l, v) temps ->
      exists t, In (t, v) uneven_morning /\ l <= t /\
                forall t', In t' (index uneven_morning) -> l <= t' -> t <= t'.
Proof.
  assert (3 <= List.length uneven_morning)%nat as Hlen by (simpl; lia).
  exact (conj Hlen (conj uneven_morning_NoDup (conj uneven_morning_not_hourly
           (conj uneven_morning_in_bounds
              (hourly_temps_backfills_next_reading uneven_morning Hlen
                 uneven_morning_NoDup uneven_morning_not_hourly
                 uneven_morning_in_bounds))))).
Defined.

Lemma landsberg_one_entry_per_day_witness :
  three_days <> [] /\ NoDup (index three_days) /\
  resample_in_bounds ns_per_day (index three_days) /\
  exists r tmin tmax,
    landsberg three_days 2 = ([], Returns r) /\
    In tmin (index three_days) /\ In tmax (index three_days) /\
    (forall t, In t (index three_days) -> tmin <= t <= tmax) /\
    index r = date_range (floor_to ns_per_day tmin) (floor_to ns_per_day tmax) ns_per_day /\
    Z.of_nat (List.length r) = tmax / ns_per_day - tmin / ns_per_day + 1.
Proof.
  assert (three_days <> []) as Hne by discriminate.
  exact (conj Hne (conj three_days_NoDup (conj three_days_in_bounds
           (landsberg_one_entry_per_day three_days 2 Hne three_days_NoDup
              three_days_in_bounds)))).
Defined.

Lemma landsberg_ignores_row_order_witness :
  NoDup (index three_days) /\ Permutation three_days (rev three_days) /\
  landsberg (rev three_days) 2 = landsberg three_days 2.
Proof.
  assert (Permutation three_days (rev three_days)) as Hp by apply Permutation_rev.
  exact (conj three_days_NoDup (conj Hp
           (landsberg_ignores_row_order three_days (rev three_days) 2
              three_days_NoDup Hp))).
Defined.

Lemma three_days_daily_midnight : daily_midnight (index three_days).
Proof.
  split.
  - intros t Ht. vm_compute in Ht.
    destruct Ht as [<- | [<- | [<- | []]]]; reflexivity.
  - intros [|[|[|i]]] a b Ha Hb; vm_compute in Ha, Hb; try discriminate;
      inversion Ha; inversion Hb; reflexivity.
Qed.

Lemma landsberg_on_daily_grid_witness :
  daily_midnight (index three_days) /\
  resample_in_bounds ns_per_day (index three_days) /\
  landsberg three_days 2
  = ([], Returns (smap (fun x => PrimFloat.div x 2) (cumsum_float three_days))).
Proof.
  exact (conj three_days_daily_midnight (conj three_days_in_bounds
           (landsberg_on_daily_grid three_days 2 three_days_daily_midnight
              three_days_in_bounds))).
Defined.

Lemma reset_chill_hours_ignores_offset_witness :
  NoDup (index two_year_series) /\
  reset_chill_hours (smap (fun v => dsub v 10) two_year_series) (ResetInt 1)
  = reset_chill_hours two_year_series (ResetInt 1).
Proof.
  exact (conj two_year_series_NoDup
           (reset_chill_hours_ignores_offset two_year_series (ResetInt 1) 10
              two_year_series_NoDup)).
Defined.

Lemma reset_chill_hours_idempotent_witness :
  NoDup (index two_year_series) /\
  exists s',
    reset_chill_hours two_year_series (ResetInt 1) = Returns (smap Some s') /\
    reset_chill_hours s' (ResetInt 1) = Returns (smap Some s').
Proof.
  exact (conj two_year_series_NoDup
           (reset_chill_hours_idempotent two_year_series (ResetInt 1)
              two_year_series_NoDup)).
Defined.

Lemma at_date_2020_12_30_in_int64 : in_int64 (at_date 2020 12 30 0).
Proof. vm_compute. split; [discriminate | reflexivity]. Qed.

Lemma at_date_2021_1_2_in_int64 : in_int64 (at_date 2021 1 2 0).
Proof. vm_compute. split; [discriminate | reflexivity]. Qed.


Lemma dormancy_year_never_decreases_witness :
  anchor_in_year (ResetInt 244) /\
  in_int64 (at_date 2020 12 30 0) /\ in_int64 (at_date 2021 1 2 0) /\
  at_date 2020 12 30 0 <= at_date 2021 1 2 0 /\
  dormancy_year (start_doy (ResetInt 244)) (at_date 2020 12 30 0)
  <= dormancy_year (start_doy (ResetInt 244)) (at_date 2021 1 2 0).
Proof.
  assert (anchor_in_year (ResetInt 244)) as Ha by (simpl; lia).
  assert (at_date 2020 12 30 0 <= at_date 2021 1 2 0) as Hle by (vm_compute; discriminate).
  exact (conj Ha (conj at_date_2020_12_30_in_int64 (conj at_date_2021_1_2_in_int64
           (conj Hle (dormancy_year_never_decreases _ _ _ Ha
                        at_date_2020_12_30_in_int64 at_date_2021_1_2_in_int64 Hle))))).
Defined.

Lemma same_dormancy_year_within_366_days_witness :
  anchor_in_year (ResetInt 244) /\
  in_int64 (at_date 2020 12 30 0) /\ in_int64 (at_date 2021 1 2 0) /\
  at_date 2020 12 30 0 <= at_date 2021 1 2 0 /\
  dormancy_year (start_doy (ResetInt 244)) (at_date 2020 12 30 0)
  = dormancy_year (start_doy (ResetInt 244)) (at_date 2021 1 2 0) /\
  at_date 2021 1 2 0 / ns_per_day - at_date 2020 12 30 0 / ns_per_day <= 365.
Proof.
  assert (anchor_in_year (ResetInt 244)) as Ha by (simpl; lia).
  assert (at_date 2020 12 30 0 <= at_date 2021 1 2 0) as Hle by (vm_compute; discriminate).
  assert (dormancy_year (start_doy (ResetInt 244)) (at_date 2020 12 30 0)
          = dormancy_year (start_doy (ResetInt 244)) (at_date 2021 1 2 0)) as Hk
    by (vm_compute; reflexivity).
  exact (conj Ha (conj at_date_2020_12_30_in_int64 (conj at_date_2021_1_2_in_int64
           (conj Hle (conj Hk (same_dormancy_year_within_366_days _ _ _ Ha
                        at_date_2020_12_30_in_int64 at_date_2021_1_2_in_int64 Hle Hk)))))).
Defined.

Lemma last_hour_NoDup : NoDup (index last_hour).
Proof. apply is_unique_NoDup. reflexivity. Qed.

Lemma last_hour_latest :
  forall t, In t (index last_hour) ->
    Timestamp_min <= floor_to ns_per_day t /\ t <= at_date 2262 4 11 23 + 5.
Proof.
  intros t Ht. simpl in Ht.
  repeat (destruct Ht as [<- | Ht]; [vm_compute; split; discriminate|]).
  contradiction.
Qed.

Lemma landsberg_raises_past_last_day_witness :
  NoDup (index last_hour) /\ In (at_date 2262 4 11 23 + 5) (index last_hour) /\
  (forall t, In t (index last_hour) ->
     Timestamp_min <= floor_to ns_per_day t /\ t <= at_date 2262 4 11 23 + 5) /\
  Timestamp_max < floor_to ns_per_day (at_date 2262 4 11 23 + 5) + ns_per_day /\
  landsberg last_hour 2 = ([], Raises OutOfBoundsDatetime).
Proof.
  assert (In (at_date 2262 4 11 23 + 5) (index last_hour)) as Hin
    by (right; right; left; reflexivity).
  assert (Timestamp_max < floor_to ns_per_day (at_date 2262 4 11 23 + 5) + ns_per_day)
    as Hend by (vm_compute; reflexivity).
  exact (conj last_hour_NoDup (conj Hin (conj last_hour_latest (conj Hend
           (landsberg_raises_past_last_day last_hour 2 _
              last_hour_NoDup Hin last_hour_latest Hend))))).
Defined.

Lemma hourly_models_raise_past_last_hour_witness :
  (3 <= List.length last_hour)%nat /\ NoDup (index last_hour) /\
  ~ hourly_cadence (index last_hour) /\
  In (at_date 2262 4 11 23 + 5) (index last_hour) /\
  (forall t, In t (index last_hour) ->
     Timestamp_min <= floor_to ns_per_day t /\ t <= at_date 2262 4 11 23 + 5) /\
  Timestamp_max < floor_to ns_per_hour (at_date 2262 4 11 23 + 5) + ns_per_hour /\
  chilling_hours last_hour = ([reindex_warning], Raises OutOfBoundsDatetime) /\
  (forall fahrenheit_model,
     utah last_hour fahrenheit_model = ([reindex_warning], Raises OutOfBoundsDatetime)) /\
  positive_chill_units last_hour = ([reindex_warning], Raises OutOfBoundsDatetime) /\
  low_chill last_hour = ([reindex_warning], Raises OutOfBoundsDatetime) /\
  north_carolina last_hour = ([reindex_warning], Raises OutOfBoundsDatetime) /\
  dynamic last_hour = ([reindex_warning], Raises OutOfBoundsDatetime).
Proof.
  assert (3 <= List.length last_hour)%nat as Hlen by (simpl; lia).
  assert (~ hourly_cadence (index last_hour)) as Hnh.
  { intros Hh. apply deltas_hourly in Hh. vm_compute in Hh. discriminate. }
  assert (In (at_date 2262 4 11 23 + 5) (index last_hour)) as Hin
    by (right; right; left; reflexivity).
  assert (Timestamp_max < floor_to ns_per_hour (at_date 2262 4 11 23 + 5) + ns_per_hour)
    as Hend by (vm_compute; reflexivity).
  exact (conj Hlen (conj last_hour_NoDup (conj Hnh (conj Hin (conj last_hour_latest
           (conj Hend
              (hourly_models_raise_past_last_hour last_hour _ Hlen last_hour_NoDup
                 Hnh Hin last_hour_latest Hend))))))).
Defined.
